(** * Ubuntu Planner: session lifecycle and notification worker

    A shallow embedding of the session service
    ([backend/app/services/session_service.py]) and its API routes
    ([backend/app/api/sessions.py]), of the session store getters and
    the duration format of the web interface
    ([frontend/src/stores/sessions.js], [components/SessionBanner.vue]),
    of the notification service
    ([backend/app/services/notification_service.py]) and of the
    background notification worker
    ([backend/app/tasks/notification_worker.py], in its first and in its
    later version), followed by the properties established for them.

    Conventions of the embedding.
    - A [datetime] is a number of microseconds on the local time line (the
      resolution of Python's [datetime]); a [timedelta] is a difference of
      two of them.  The quotient [total_seconds() / 60] is kept as an
      exact rational.
    - A JavaScript [Date] is a number of milliseconds; the quotients the
      getters take of a difference of two of them are exact as well.
    - A table is the list of its rows in primary-key order; [.first()]
      is the first row that passes the filter.  A DATETIME column
      holds the instant assigned to it; the column constraints of the
      schema are the database engine's business and are not part of
      the service code.
    - Python exceptions are values of [exn]; code that can raise lives in
      the monad [M], which keeps the state reached when the exception is
      raised (mutations of Python objects are not rolled back).
    - Within one request or one tick every [datetime.now()] reads the
      same instant [now]. *)

From Stdlib Require Import ZArith QArith Qround Lia Ascii String DecimalString.
From Stdlib Require Import DecimalZ DecimalPos.
From stdpp Require Import base option list strings gmap sorting.

Local Open Scope Z_scope.

(** ** Time *)

Abbreviation datetime := Z (only parsing).
Abbreviation timedelta := Z (only parsing).

Definition microseconds_per_second : Z := 1000000.
Definition microseconds_per_minute : Z := 60 * microseconds_per_second.

(** [timedelta(minutes=n)] *)
Definition minutes (n : Z) : timedelta := n * microseconds_per_minute.

(** [timedelta(seconds=n)] *)
Definition seconds (n : Z) : timedelta := n * microseconds_per_second.

(** [td.total_seconds()] *)
Definition total_seconds (td : timedelta) : Q := Qmake td 1000000.

(** [(a - b).total_seconds() / 60] *)
Definition minutes_between (a b : datetime) : Q :=
  Qdiv (total_seconds (a - b)) (inject_Z 60).

(** Python's [int(x)] on a float: truncation toward zero. *)
Definition int_of (x : Q) : Z := Z.quot (Qnum x) (Z.pos (Qden x)).

Definition Qlt_bool (x y : Q) : bool := negb (Qle_bool y x).

(** [str(n)] and the [{n}] of an f-string, for an integer. *)
Definition str (n : Z) : string := NilZero.string_of_int (Z.to_int n).

(** The newline of ["\n"]. *)
Definition nl : string := String "010"%char EmptyString.

(** [t.strftime("%H:%M")] *)
Definition digit (n : Z) : ascii := ascii_of_nat (48 + Z.to_nat n).

Definition two_digits (n : Z) : string :=
  String (digit (n / 10)) (String (digit (n mod 10)) EmptyString).

Definition hour (t : datetime) : Z := (t / minutes 60) mod 24.
Definition minute (t : datetime) : Z := (t / minutes 1) mod 60.

Definition strftime_HM (t : datetime) : string :=
  two_digits (hour t) +:+ ":" +:+ two_digits (minute t).

(** ** Exceptions and the state-and-exception monad *)

Inductive exn : Type :=
| ValueError (msg : string)
| AttributeError (msg : string)
| ZeroDivisionError
| OSError (msg : string)
| ArgumentError (msg : string).

(** [str(e)] *)
Definition exn_str (e : exn) : string :=
  match e with
  | ValueError m => m
  | AttributeError m => m
  | ZeroDivisionError => "integer modulo by zero"
  | OSError m => m
  | ArgumentError m => m
  end.

Inductive result (A : Type) : Type :=
| Ok (a : A)
| Raise (e : exn).

Arguments Ok {A} a.
Arguments Raise {A} e.

Definition M (S A : Type) : Type := S -> result A * S.

Definition ret {S A} (a : A) : M S A := fun s => (Ok a, s).

Definition raise {S A} (e : exn) : M S A := fun s => (Raise e, s).

Definition bind {S A B} (m : M S A) (k : A -> M S B) : M S B :=
  fun s =>
    match m s with
    | (Ok a, s') => k a s'
    | (Raise e, s') => (Raise e, s')
    end.

Definition get {S} : M S S := fun s => (Ok s, s).

Definition modify {S} (f : S -> S) : M S unit := fun s => (Ok tt, f s).

(** [try: m  except Exception as e: h e] *)
Definition try_except {S A} (m : M S A) (h : exn -> M S A) : M S A :=
  fun s =>
    match m s with
    | (Ok a, s') => (Ok a, s')
    | (Raise e, s') => h e s'
    end.

(** The monad is used through stdpp's [x ← m; k] and [m;; k]. *)
#[global] Instance M_ret {S} : MRet (M S) := fun A => @ret S A.
#[global] Instance M_bind {S} : MBind (M S) := fun A B k m => @bind S A B m k.

(** ** Models ([backend/app/models]) *)

Module Project.
Record t : Type := mk {
  id : Z;
  name : string;
  notification_interval : option Z
}.
End Project.

Module Session.
Record t : Type := mk {
  id : Z;
  project_id : option Z;
  start_time : datetime;
  end_time : option datetime;
  planned_duration : Z;
  planning_id : option Z;
  notes : option string;
  satisfaction_score : option Z;
  tasks_done : option string;
  notification_disabled : bool;
  tags : list Z
}.

(** The generated column [actual_duration]:
    [CASE WHEN end_time IS NULL THEN NULL
          ELSE TIMESTAMPDIFF(MINUTE, start_time, end_time) END]. *)
Definition actual_duration (s : t) : option Z :=
  match end_time s with
  | None => None
  | Some e => Some (Z.quot (e - start_time s) microseconds_per_minute)
  end.

(** [Session.end_time.is_(None)] *)
Definition is_active (s : t) : bool :=
  match end_time s with None => true | Some _ => false end.

(** Attribute assignment on a loaded row. *)
Definition set_end_time (v : option datetime) (s : t) : t :=
  mk (id s) (project_id s) (start_time s) v (planned_duration s)
     (planning_id s) (notes s) (satisfaction_score s) (tasks_done s)
     (notification_disabled s) (tags s).

Definition set_planned_duration (v : Z) (s : t) : t :=
  mk (id s) (project_id s) (start_time s) (end_time s) v
     (planning_id s) (notes s) (satisfaction_score s) (tasks_done s)
     (notification_disabled s) (tags s).

Definition set_notes (v : option string) (s : t) : t :=
  mk (id s) (project_id s) (start_time s) (end_time s) (planned_duration s)
     (planning_id s) v (satisfaction_score s) (tasks_done s)
     (notification_disabled s) (tags s).

Definition set_satisfaction_score (v : option Z) (s : t) : t :=
  mk (id s) (project_id s) (start_time s) (end_time s) (planned_duration s)
     (planning_id s) (notes s) v (tasks_done s)
     (notification_disabled s) (tags s).

Definition set_tasks_done (v : option string) (s : t) : t :=
  mk (id s) (project_id s) (start_time s) (end_time s) (planned_duration s)
     (planning_id s) (notes s) (satisfaction_score s) v
     (notification_disabled s) (tags s).

Definition set_notification_disabled (v : bool) (s : t) : t :=
  mk (id s) (project_id s) (start_time s) (end_time s) (planned_duration s)
     (planning_id s) (notes s) (satisfaction_score s) (tasks_done s)
     v (tags s).

Definition set_tags (v : list Z) (s : t) : t :=
  mk (id s) (project_id s) (start_time s) (end_time s) (planned_duration s)
     (planning_id s) (notes s) (satisfaction_score s) (tasks_done s)
     (notification_disabled s) v.
End Session.

(** The column [priority ENUM('low', 'medium', 'critical')]. *)
Inductive Priority : Type := low | medium | critical.

Module Planning.
Record t : Type := mk {
  id : Z;
  project_id : Z;
  scheduled_start : datetime;
  scheduled_end : datetime;
  priority : Priority;
  description : option string
}.
End Planning.

(** The database: one list of rows per table.  [tag_table] holds the
    ids of the rows of [tags]; [settings] maps [key_name] to the integer
    held in [value_json]. *)
Record DB : Type := mkDB {
  sessions : list Session.t;
  next_session_id : Z;
  tag_table : list Z;
  projects : list Project.t;
  planning : list Planning.t;
  settings : gmap string Z
}.

Definition set_sessions (rows : list Session.t) (db : DB) : DB :=
  mkDB rows (next_session_id db) (tag_table db) (projects db)
       (planning db) (settings db).

(** [db.query(Tag).filter(Tag.id.in_(tag_ids)).all()] *)
Definition query_tags (db : DB) (tag_ids : list Z) : list Z :=
  List.filter (fun t => bool_decide (t ∈ tag_ids)) (tag_table db).

(** The relationship [session.project] / [plan.project]. *)
Definition project_of (db : DB) (pid : option Z) : option Project.t :=
  match pid with
  | None => None
  | Some p => List.find (fun r => Project.id r =? p) (projects db)
  end.

(** ** The session service ([session_service.py]) *)

(** The request body of [POST /api/sessions/], passed on as
    [session_data]; [start_time] is the key the service fills in when it
    is absent.  The columns that [session_data] does not name take their
    defaults. *)
Module SessionStart.
Record t : Type := mk {
  project_id : option Z;
  planned_duration : Z;
  planning_id : option Z;
  tag_ids : list Z;
  start_time : option datetime
}.
End SessionStart.

(** The items of [review_data], in the order of the dict: the fields of
    [SessionReview] that the request has set.  Each of the four fields
    is optional, so a request can set any of them to an explicit
    null. *)
Inductive review_item : Type :=
| satisfaction_score_item (v : option Z)
| tasks_done_item (v : option string)
| notes_item (v : option string)
| tag_ids_item (v : option (list Z)).

Module SessionService.

(** The row behind a loaded [Session] object is written back by
    [db.commit()]: the first row with its primary key. *)
Fixpoint update_row (s : Session.t) (rows : list Session.t) : list Session.t :=
  match rows with
  | [] => []
  | r :: rest =>
      if Session.id r =? Session.id s then s :: rest
      else r :: update_row s rest
  end.

Definition commit (s : Session.t) : M DB unit :=
  modify (fun db => set_sessions (update_row s (sessions db)) db).

(** [db.add(session); db.commit()] with an AUTO_INCREMENT key. *)
Definition add (s : Session.t) : M DB unit :=
  modify (fun db =>
    mkDB (sessions db ++ [s]) (next_session_id db + 1) (tag_table db)
         (projects db) (planning db) (settings db)).

Definition get_active_session (db : DB) : option Session.t :=
  List.find Session.is_active (sessions db).

Definition get_by_id (db : DB) (session_id : Z) : option Session.t :=
  List.find (fun s => Session.id s =? session_id) (sessions db).

(** [order_by(Session.start_time.desc())]: the later start comes first.
    The database does not fix the order of rows that started at the same
    instant; the model takes the one of the merge sort. *)
Definition started_not_before (a b : Session.t) : Prop :=
  Session.start_time b <= Session.start_time a.

#[global] Instance started_not_before_dec : RelDecision started_not_before :=
  fun a b => decide (Session.start_time b <= Session.start_time a).

(** [get_recent(limit)], for a limit the database accepts (not
    negative). *)
Definition get_recent (db : DB) (limit : nat) : list Session.t :=
  take limit
    (merge_sort started_not_before
       (List.filter (fun s => negb (Session.is_active s)) (sessions db))).

Definition start_session (now : datetime) (session_data : SessionStart.t)
  : M DB Session.t :=
  db ← get;
  match get_active_session db with
  | Some _ => raise (ValueError "Another session is already active")
  | None =>
      let start_time :=
        match SessionStart.start_time session_data with
        | Some t => t
        | None => now
        end in
      let tag_ids := SessionStart.tag_ids session_data in
      let tags :=
        match tag_ids with
        | [] => []
        | _ :: _ => query_tags db tag_ids
        end in
      let session :=
        Session.mk (next_session_id db)
          (SessionStart.project_id session_data)
          start_time None
          (SessionStart.planned_duration session_data)
          (SessionStart.planning_id session_data)
          None None None false tags in
      add session;;
      mret session
  end.

(** One iteration of [for key, value in review_data.items()].  For a
    null [tag_ids] the expression [Tag.id.in_(None)] raises SQLAlchemy's
    [ArgumentError] (not a [ValueError]); the text is the library's. *)
Definition apply_review_item (db : DB) (session : Session.t)
    (item : review_item) : result Session.t :=
  match item with
  | tag_ids_item (Some value) =>
      Ok (Session.set_tags (query_tags db value) session)
  | tag_ids_item None =>
      Raise (ArgumentError
               ("IN expression list, SELECT construct, or bound parameter " +:+
                "object expected, got None."))
  | satisfaction_score_item value =>
      Ok (Session.set_satisfaction_score value session)
  | tasks_done_item value => Ok (Session.set_tasks_done value session)
  | notes_item value => Ok (Session.set_notes value session)
  end.

(** The loop over the items, left at the first one that raises. *)
Fixpoint apply_review (db : DB) (items : list review_item)
    (session : Session.t) : result Session.t :=
  match items with
  | [] => Ok session
  | item :: rest =>
      match apply_review_item db session item with
      | Ok session' => apply_review db rest session'
      | Raise e => Raise e
      end
  end.

Definition stop_session (now : datetime) (session_id : Z)
    (review_data : option (list review_item)) : M DB Session.t :=
  db ← get;
  match get_by_id db session_id with
  | None => raise (ValueError "Session not found")
  | Some session =>
      match Session.end_time session with
      | Some _ => raise (ValueError "Session already stopped")
      | None =>
          let session := Session.set_end_time (Some now) session in
          let reviewed :=
            match review_data with
            | Some (item :: items) => apply_review db (item :: items) session
            | _ => Ok session
            end in
          match reviewed with
          | Ok session =>
              commit session;;
              mret session
          | Raise e => raise e
          end
      end
  end.

Definition add_note (now : datetime) (session_id : Z) (note : string)
  : M DB Session.t :=
  db ← get;
  match get_by_id db session_id with
  | None => raise (ValueError "Session not found")
  | Some session =>
      let timestamp := strftime_HM now in
      let new_note := "[" +:+ timestamp +:+ "] " +:+ note in
      let session :=
        match Session.notes session with
        | Some (String c old) =>
            Session.set_notes (Some (String c old +:+ nl +:+ new_note)) session
        | _ => Session.set_notes (Some new_note) session
        end in
      commit session;;
      mret session
  end.

Definition add_time (session_id : Z) (minutes : Z) : M DB Session.t :=
  db ← get;
  match get_by_id db session_id with
  | None => raise (ValueError "Session not found")
  | Some session =>
      let session :=
        Session.set_planned_duration
          (Session.planned_duration session + minutes) session in
      commit session;;
      mret session
  end.

Definition toggle_notifications (session_id : Z) : M DB Session.t :=
  db ← get;
  match get_by_id db session_id with
  | None => raise (ValueError "Session not found")
  | Some session =>
      let session :=
        Session.set_notification_disabled
          (negb (Session.notification_disabled session)) session in
      commit session;;
      mret session
  end.

(** The requests the API routes forward to the service. *)
Inductive request : Type :=
| Start (session_data : SessionStart.t)
| Stop (session_id : Z) (review_data : option (list review_item))
| AddNote (session_id : Z) (note : string)
| AddTime (session_id : Z) (minutes : Z)
| ToggleNotifications (session_id : Z).

Definition handle (now : datetime) (r : request) : M DB Session.t :=
  match r with
  | Start d => start_session now d
  | Stop i rv => stop_session now i rv
  | AddNote i n => add_note now i n
  | AddTime i m => add_time i m
  | ToggleNotifications i => toggle_notifications i
  end.

(** The stores observed while a sequence of timed requests is served:
    the store before the first request and the store after each one.
    A request that raises is answered with status 400 and the next one
    is served on the store as it stands. *)
Fixpoint observed (reqs : list (datetime * request)) (db : DB) : list DB :=
  match reqs with
  | [] => [db]
  | (now, r) :: rest => db :: observed rest (snd (handle now r db))
  end.

End SessionService.

(** ** The session store of the web interface ([stores/sessions.js]) *)

Module SessionStore.

(** [state.activeSession], as far as the getters read it; [start_time]
    stands for [new Date(state.activeSession.start_time)]. *)
Record active_session : Type := mk {
  start_time : Z;
  planned_duration : Z
}.

Section Getters.
(** [new Date()], in milliseconds. *)
Variable now : Z.
Variable activeSession : option active_session.

Definition elapsedMinutes : Z :=
  match activeSession with
  | None => 0
  | Some a =>
      Qfloor (inject_Z (now - start_time a) / inject_Z 1000 / inject_Z 60)
  end.

Definition remainingMinutes : Z :=
  match activeSession with
  | None => 0
  | Some a => Z.max 0 (planned_duration a - elapsedMinutes)
  end.

Definition isOvertime : bool :=
  match activeSession with
  | None => false
  | Some a => planned_duration a <? elapsedMinutes
  end.

Definition overtimeMinutes : Z :=
  match activeSession with
  | None => 0
  | Some a => Z.max 0 (elapsedMinutes - planned_duration a)
  end.
End Getters.

End SessionStore.

(** ** The API routes ([backend/app/api/sessions.py]) *)

Module SessionsApi.

(** What a route answers: a status with the session it returns, or the
    [HTTPException] it raises. *)
Inductive response : Type :=
| Response (status_code : Z) (body : option Session.t)
| HTTPException (status_code : Z) (detail : string).

(** [try: return m  except ValueError as e:
         raise HTTPException(status_code=400, detail=str(e))];
    any other exception is left to the framework, which answers 500. *)
Definition guarded (status_code : Z) (m : M DB Session.t)
  : DB -> response * DB :=
  fun db =>
    match m db with
    | (Ok s, db') => (Response status_code (Some s), db')
    | (Raise (ValueError msg), db') => (HTTPException 400 msg, db')
    | (Raise _, db') => (HTTPException 500 "Internal Server Error", db')
    end.

Definition get_active_session (db : DB) : response :=
  Response 200 (SessionService.get_active_session db).

Definition get_recent_sessions (limit : option nat) (db : DB) : list Session.t :=
  SessionService.get_recent db (default 20%nat limit).

(** [data.dict()] has the four fields of the request body and no
    [start_time]. *)
Definition start_session (now : datetime) (project_id : option Z)
    (planned_duration : Z) (planning_id : option Z) (tag_ids : list Z)
  : DB -> response * DB :=
  guarded 201
    (SessionService.start_session now
       (SessionStart.mk project_id planned_duration planning_id tag_ids None)).

(** [review.dict(exclude_unset=True) if review else None] *)
Definition stop_session (now : datetime) (session_id : Z)
    (review : option (list review_item)) : DB -> response * DB :=
  guarded 200 (SessionService.stop_session now session_id review).

Definition add_note (now : datetime) (session_id : Z) (note : string)
  : DB -> response * DB :=
  guarded 200 (SessionService.add_note now session_id note).

(** [minutes: int = 15] *)
Definition add_time (session_id : Z) (minutes : option Z)
  : DB -> response * DB :=
  guarded 200 (SessionService.add_time session_id (default 15 minutes)).

Definition toggle_notifications (session_id : Z) : DB -> response * DB :=
  guarded 200 (SessionService.toggle_notifications session_id).

(** The calls of the routes that write. *)
Inductive call : Type :=
| post_start (project_id : option Z) (planned_duration : Z)
             (planning_id : option Z) (tag_ids : list Z)
| post_stop (session_id : Z) (review : option (list review_item))
| post_add_note (session_id : Z) (note : string)
| post_add_time (session_id : Z) (minutes : option Z)
| post_toggle_notifications (session_id : Z).

Definition serve (now : datetime) (c : call) : DB -> response * DB :=
  match c with
  | post_start p d pl t => start_session now p d pl t
  | post_stop i r => stop_session now i r
  | post_add_note i n => add_note now i n
  | post_add_time i m => add_time i m
  | post_toggle_notifications i => toggle_notifications i
  end.

End SessionsApi.

(** ** The session banner ([components/SessionBanner.vue]) *)

Module SessionBanner.

(** [formatDuration(minutes)] on a whole number of minutes:
    [Math.floor(minutes / 60)], the remainder [minutes % 60] with the
    sign of [minutes], and the two template strings. *)
Definition formatDuration (minutes : Z) : string :=
  let h := minutes / 60 in
  let m := Z.rem minutes 60 in
  if 0 <? h then str h +:+ "h " +:+ str m +:+ "m" else str m +:+ "m".

End SessionBanner.

(** ** The notification service ([notification_service.py]) *)

(** What the process leaves behind: the worker's [_notification_cache],
    the calls made to [notification_service.send_notification], the
    config paths that reached the socket, and the lines printed. *)
Record Notification : Type := mkNotification {
  title : string;
  message : string;
  urgency : string
}.

Record World : Type := mkWorld {
  _notification_cache : gmap string datetime;
  calls : list Notification;
  wire : list string;
  stdout : list string
}.

Definition print (line : string) : M World unit :=
  modify (fun w =>
    mkWorld (_notification_cache w) (calls w) (wire w) (stdout w ++ [line])).

(** The outside of the process, as met by the [n]-th call of
    [send_notification]: the temporary file is written under some name
    or the write raises; the connection to the notification daemon
    succeeds or raises. *)
Inductive write_outcome : Type :=
| Written (path : string)
| WriteRaises (e : exn).

Record Env : Type := mkEnv {
  write_temp : nat -> write_outcome;
  connect : nat -> option exn
}.

Module NotificationService.
Section WithEnv.
Variable env : Env.

Definition _create_config (title message urgency : string)
    (icon : option string) (timeout : Z) : string :=
  let config :=
    "[notification]" +:+ nl +:+
    "title=" +:+ title +:+ nl +:+
    "message=" +:+ message +:+ nl +:+
    "urgency=" +:+ urgency +:+ nl +:+
    "timeout=" +:+ str timeout +:+ nl in
  match icon with
  | Some (String c i) => config +:+ "icon=" +:+ String c i +:+ nl
  | _ => config
  end.

Definition _write_temp_config (n : nat) (content : string) : M World string :=
  match write_temp env n with
  | Written path => mret path
  | WriteRaises e => raise e
  end.

Definition _send_to_service (n : nat) (config_path : string) : M World bool :=
  try_except
    (match connect env n with
     | None =>
         modify (fun w =>
           mkWorld (_notification_cache w) (calls w)
                   (wire w ++ [config_path]) (stdout w));;
         mret true
     | Some e => raise e
     end)
    (fun e =>
       print ("Failed to connect to notification service: " +:+ exn_str e);;
       mret false).

Definition send_notification (title message urgency : string)
    (icon : option string) (timeout : Z) : M World bool :=
  w ← get;
  let n := length (calls w) in
  modify (fun w =>
    mkWorld (_notification_cache w)
            (calls w ++ [mkNotification title message urgency])
            (wire w) (stdout w));;
  try_except
    (let config_content := _create_config title message urgency icon timeout in
     config_path ← _write_temp_config n config_content;
     success ← _send_to_service n config_path;
     mret success)
    (fun e =>
       print ("Failed to send notification: " +:+ exn_str e);;
       mret false).
End WithEnv.
End NotificationService.

(** ** The notification worker ([notification_worker.py]) *)

Module NotificationWorker.
Section WithEnv.
Variable env : Env.
Variable db : DB.

Definition cache_key (item_id : Z) (item_type : string) : string :=
  item_type +:+ "_" +:+ str item_id.

Definition _was_notification_sent_recently (now : datetime)
    (item_id : Z) (item_type : string) : M World bool :=
  w ← get;
  let key := cache_key item_id item_type in
  match _notification_cache w !! key with
  | None => mret false
  | Some last_sent =>
      mret (Qlt_bool (total_seconds (now - last_sent)) (inject_Z 60))
  end.

Definition _mark_notification_sent (now : datetime)
    (item_id : Z) (item_type : string) : M World unit :=
  let key := cache_key item_id item_type in
  modify (fun w =>
    mkWorld (<[key := now]> (_notification_cache w))
            (calls w) (wire w) (stdout w)).

(** The block both checks end with:
    [if not self._was_notification_sent_recently(id, type):
         send(); self._mark_notification_sent(id, type)]. *)
Definition notify_unless_recent (now : datetime) (item_id : Z)
    (item_type : string) (send : M World unit) : M World unit :=
  recently ← _was_notification_sent_recently now item_id item_type;
  if negb recently then
    send;;
    _mark_notification_sent now item_id item_type
  else mret tt.

(** [plan.project.name] *)
Definition project_name (p : option Project.t) : M World string :=
  match p with
  | Some p => mret (Project.name p)
  | None => raise (AttributeError "'NoneType' object has no attribute 'name'")
  end.

(** [if plan.description: message += f"\n{plan.description}"] *)
Definition with_description (message : string) (d : option string) : string :=
  match d with
  | Some (String c rest) => message +:+ nl +:+ String c rest
  | _ => message
  end.

Definition _send_planning_notification (plan : Planning.t)
    (elapsed_minutes : Q) : M World unit :=
  let urgency :=
    match Planning.priority plan with
    | critical => "critical"
    | _ => "normal"
    end in
  project ← project_name (project_of db (Some (Planning.project_id plan)));
  let '(title, message) :=
    if Qlt_bool elapsed_minutes (inject_Z 1) then
      ("Scheduled Work",
       with_description ("Time to start: " +:+ project)
                        (Planning.description plan))
    else
      ("Planning Reminder",
       with_description
         ("Reminder: " +:+ project +:+ nl +:+
          "Scheduled " +:+ str (int_of elapsed_minutes) +:+ " minutes ago")
         (Planning.description plan)) in
  NotificationService.send_notification env title message urgency None 5000;;
  mret tt.

(** The planning interval: 10 unless the plan's project carries a
    non-zero [notification_interval]. *)
Definition planning_interval (plan : Planning.t) : Z :=
  match project_of db (Some (Planning.project_id plan)) with
  | Some p =>
      match Project.notification_interval p with
      | Some i => if i =? 0 then 10 else i
      | None => 10
      end
  | None => 10
  end.

(** [session_from_plan]: a session whose [planning_id] is the plan's. *)
Definition session_from_plan (plan : Planning.t) : option Session.t :=
  List.find
    (fun s => match Session.planning_id s with
              | Some p => p =? Planning.id plan
              | None => false
              end)
    (sessions db).

(** [any_recent_session]: started at or after the plan's start and
    still active. *)
Definition any_recent_session (plan : Planning.t) : option Session.t :=
  List.find
    (fun s => (Planning.scheduled_start plan <=? Session.start_time s)
              && Session.is_active s)
    (sessions db).

Definition planning_should_notify (now : datetime) (plan : Planning.t) : bool :=
  let elapsed_minutes := minutes_between now (Planning.scheduled_start plan) in
  if Qlt_bool elapsed_minutes (inject_Z 1) then true
  else
    let interval := planning_interval plan in
    int_of elapsed_minutes mod interval =? 0.

(** The body of [for plan in planning_list]. *)
Definition check_plan (now : datetime) (plan : Planning.t) : M World unit :=
  match session_from_plan plan with
  | Some _ => mret tt
  | None =>
      match any_recent_session plan with
      | Some _ => mret tt
      | None =>
          let elapsed_minutes :=
            minutes_between now (Planning.scheduled_start plan) in
          if planning_should_notify now plan then
            notify_unless_recent now (Planning.id plan) "planning"
              (_send_planning_notification plan elapsed_minutes)
          else mret tt
      end
  end.

Fixpoint for_each {A} (body : A -> M World unit) (l : list A) : M World unit :=
  match l with
  | [] => mret tt
  | x :: rest => body x;; for_each body rest
  end.

Definition planning_list (now : datetime) : list Planning.t :=
  let window_start := now - minutes 5 in
  List.filter
    (fun p => (window_start <=? Planning.scheduled_start p)
              && (Planning.scheduled_start p <=? now))
    (planning db).

Definition _check_planning_notifications (now : datetime) : M World unit :=
  for_each (check_plan now) (planning_list now).

Definition _send_session_notification (session : Session.t)
    (overtime : Q) : M World unit :=
  let project_name :=
    match project_of db (Session.project_id session) with
    | Some p => Project.name p
    | None => "Session"
    end in
  let planned := Session.planned_duration session in
  let '(title, message) :=
    if Qlt_bool overtime (inject_Z 1) then
      ("Session Complete: " +:+ project_name,
       "Time is up! You've worked for " +:+ str planned +:+ " minutes." +:+ nl +:+
       "Consider taking a break or starting something else.")
    else
      ("Still Working: " +:+ project_name,
       "You're " +:+ str (int_of overtime) +:+ " minutes over planned time." +:+ nl +:+
       "Planned: " +:+ str planned +:+ " min, " +:+
       "Elapsed: " +:+ str (int_of (overtime + inject_Z planned)) +:+ " min") in
  NotificationService.send_notification env title message "normal" None 5000;;
  mret tt.

(** The session interval: the project's non-zero
    [notification_interval], else the setting
    [notification_interval_default], else 10. *)
Definition session_interval (session : Session.t) : Z :=
  let from_settings :=
    match settings db !! "notification_interval_default" with
    | Some v => v
    | None => 10
    end in
  match project_of db (Session.project_id session) with
  | Some p =>
      match Project.notification_interval p with
      | Some i => if i =? 0 then from_settings else i
      | None => from_settings
      end
  | None => from_settings
  end.

(** [a % b] raises on a zero divisor. *)
Definition py_mod (a b : Z) : M World Z :=
  if b =? 0 then raise ZeroDivisionError else mret (a mod b).

Definition _check_session_notifications (now : datetime) : M World unit :=
  match SessionService.get_active_session db with
  | None => mret tt
  | Some active_session =>
      if Session.notification_disabled active_session then mret tt
      else
        let elapsed_minutes :=
          minutes_between now (Session.start_time active_session) in
        if Qlt_bool elapsed_minutes
                    (inject_Z (Session.planned_duration active_session))
        then mret tt
        else
          let overtime_minutes :=
            (elapsed_minutes
             - inject_Z (Session.planned_duration active_session))%Q in
          let interval := session_interval active_session in
          should_notify ←
            (if Qlt_bool overtime_minutes (inject_Z 1) then mret true
             else
               r ← py_mod (int_of overtime_minutes) interval;
               mret (r =? 0));
          if (should_notify : bool) then
            notify_unless_recent now (Session.id active_session) "session"
              (_send_session_notification active_session overtime_minutes)
          else mret tt
  end.

(** One tick. *)
Definition check_notifications (now : datetime) : M World unit :=
  _check_planning_notifications now;;
  _check_session_notifications now.
End WithEnv.

(** The [while self.running] loop of [start], for the ticks that run
    before [stop]: the [i]-th tick reads the database [fst] and the
    clock [snd] of the [i]-th element. *)
Fixpoint polling_loop (env : Env) (ticks : list (DB * datetime))
  : M World unit :=
  match ticks with
  | [] => mret tt
  | (db, now) :: rest =>
      try_except (check_notifications env db now)
        (fun e => print ("Error in notification worker: " +:+ exn_str e));;
      polling_loop env rest
  end.

Definition start (env : Env) (ticks : list (DB * datetime)) : M World unit :=
  print "Notification worker started";;
  polling_loop env ticks.

End NotificationWorker.

(** ** The first version of the worker (project setup, Phase 0)

    [notification_worker.py] as the notification integration guide
    creates it, before the planning and session guides replace the two
    checks: no cache of sent notifications, a planning window that
    reaches five minutes ahead, and the overtime test on the float
    remainder. *)

(** Python's [x % n] for a float [x] and a non-zero integer [n]: the
    remainder has the sign of [n]. *)
Definition float_mod (x : Q) (n : Z) : Q :=
  (x - inject_Z n * inject_Z (Qfloor (x / inject_Z n)))%Q.

Module NotificationWorker0.
Section WithEnv.
Variable env : Env.
Variable db : DB.

Definition _send_planning_notification (plan : Planning.t) : M World unit :=
  let urgency :=
    match Planning.priority plan with
    | critical => "critical"
    | _ => "normal"
    end in
  project ← NotificationWorker.project_name
              (project_of db (Some (Planning.project_id plan)));
  let message :=
    NotificationWorker.with_description ("Time to start: " +:+ project)
                                        (Planning.description plan) in
  NotificationService.send_notification env "Scheduled Work" message urgency
                                        None 5000;;
  mret tt.

Definition _send_session_notification (session : Session.t) (overtime : Q)
  : M World unit :=
  let project_name :=
    match project_of db (Session.project_id session) with
    | Some p => Project.name p
    | None => "Session"
    end in
  let planned := Session.planned_duration session in
  let message :=
    if Qlt_bool overtime (inject_Z 1) then
      "Time is up! You've worked for " +:+ str planned +:+
      " minutes. Consider taking a break."
    else
      "Still working? You're " +:+ str (int_of overtime) +:+
      " minutes over planned time." +:+ nl +:+
      "Planned: " +:+ str planned +:+ " min, Elapsed: " +:+
      str (int_of (overtime + inject_Z planned)) +:+ " min" in
  NotificationService.send_notification env ("Session: " +:+ project_name)
                                        message "normal" None 5000;;
  mret tt.

Definition planning_list (now : datetime) : list Planning.t :=
  let window_start := now - minutes 5 in
  let window_end := now + minutes 5 in
  List.filter
    (fun p => (window_start <=? Planning.scheduled_start p)
              && (Planning.scheduled_start p <=? window_end))
    (planning db).

(** The body of [for plan in planning_list]. *)
Definition check_plan (plan : Planning.t) : M World unit :=
  match NotificationWorker.session_from_plan db plan with
  | Some _ => mret tt
  | None =>
      match NotificationWorker.any_recent_session db plan with
      | Some _ => mret tt
      | None => _send_planning_notification plan
      end
  end.

Definition _check_planning_notifications (now : datetime) : M World unit :=
  NotificationWorker.for_each check_plan (planning_list now).

(** 10 unless the session's project carries a non-zero
    [notification_interval]. *)
Definition session_interval (session : Session.t) : Z :=
  match project_of db (Session.project_id session) with
  | Some p =>
      match Project.notification_interval p with
      | Some i => if i =? 0 then 10 else i
      | None => 10
      end
  | None => 10
  end.

Definition _check_session_notifications (now : datetime) : M World unit :=
  match SessionService.get_active_session db with
  | None => mret tt
  | Some active_session =>
      if Session.notification_disabled active_session then mret tt
      else
        let elapsed := minutes_between now (Session.start_time active_session) in
        if Qle_bool (inject_Z (Session.planned_duration active_session)) elapsed
        then
          let overtime :=
            (elapsed - inject_Z (Session.planned_duration active_session))%Q in
          let interval := session_interval active_session in
          if Qlt_bool (float_mod overtime interval) (inject_Z 1) then
            _send_session_notification active_session overtime
          else mret tt
        else mret tt
  end.

Definition check_notifications (now : datetime) : M World unit :=
  _check_planning_notifications now;;
  _check_session_notifications now.
End WithEnv.
End NotificationWorker0.

(** ** Vocabulary of the statements *)

(** The number of active rows of the sessions table. *)
Definition active_count (rows : list Session.t) : nat :=
  length (List.filter Session.is_active rows).

(** What a request does to the table: nothing, one appended row (only
    when no row was active), or one row written back under its own key,
    its start time kept and its end time kept or set from [None]. *)
Inductive table_step (rows : list Session.t) : list Session.t -> Prop :=
| step_none : table_step rows rows
| step_add s :
    List.find Session.is_active rows = None ->
    table_step rows (rows ++ [s])
| step_update s r :
    List.find (fun x => Session.id x =? Session.id s) rows = Some r ->
    Session.start_time s = Session.start_time r ->
    (Session.end_time s = Session.end_time r \/ Session.end_time r = None) ->
    table_step rows (SessionService.update_row s rows).

(** Two worlds that agree on what the worker decides from and on what it
    asked the notification service to send; they may differ in what
    reached the socket and in what was printed. *)
Definition same_dispatch (w1 w2 : World) : Prop :=
  _notification_cache w1 = _notification_cache w2 /\ calls w1 = calls w2.

(** Two computations that, from worlds with the same dispatches, end
    the same way in worlds with the same dispatches. *)
Definition sim {A} (m1 m2 : M World A) : Prop :=
  forall w1 w2, same_dispatch w1 w2 ->
    fst (m1 w1) = fst (m2 w2) /\ same_dispatch (snd (m1 w1)) (snd (m2 w2)).

(** An active session is due at [now]: its planned time has elapsed
    and the overtime is below one minute or a whole multiple of the
    interval. *)
Definition session_due (db : DB) (now : datetime) (s : Session.t) : bool :=
  let elapsed_minutes := minutes_between now (Session.start_time s) in
  let overtime_minutes :=
    (elapsed_minutes - inject_Z (Session.planned_duration s))%Q in
  let interval := NotificationWorker.session_interval db s in
  negb (Qlt_bool elapsed_minutes (inject_Z (Session.planned_duration s)))
  && (Qlt_bool overtime_minutes (inject_Z 1)
      || (negb (interval =? 0) && (int_of overtime_minutes mod interval =? 0))).

(** The cache holds a stamp for the key that is less than 60 seconds
    older than [now]. *)
Definition sent_recently (w : World) (now : datetime) (item_id : Z)
    (item_type : string) : bool :=
  match _notification_cache w !! NotificationWorker.cache_key item_id item_type with
  | None => false
  | Some last_sent => now - last_sent <? seconds 60
  end.

(** A sender as the two checks use it: it returns, records one call,
    and leaves the cache alone. *)
Definition one_call (send : M World unit) (n : Notification) : Prop :=
  forall w, exists w',
    send w = (Ok tt, w')
    /\ calls w' = calls w ++ [n]
    /\ _notification_cache w' = _notification_cache w.

(** ** Example data *)

Module Examples.
Import SessionService.

Definition thesis : Project.t := Project.mk 1 "Thesis" None.
Definition garden : Project.t := Project.mk 2 "Garden" (Some 3).

(** [h:m] on the day the time line starts. *)
Definition at_ (h m : Z) : datetime := minutes (60 * h + m).

Definition no_settings : gmap string Z := ∅.

Definition db_empty : DB :=
  mkDB [] 1 [1; 2; 3] [thesis; garden] [] no_settings.

Definition s_active : Session.t :=
  Session.mk 1 (Some 1) (at_ 9 0) None 30 None None None None false [].

Definition s_stopped : Session.t :=
  Session.mk 1 (Some 1) (at_ 9 1) (Some (at_ 9 2)) 30 None
             (Some "[09:01] outline") (Some 80) None false [2].

Definition s_muted : Session.t :=
  Session.set_notification_disabled true s_active.

Definition db_active : DB :=
  mkDB [s_active] 2 [1; 2; 3] [thesis; garden] [] no_settings.

Definition db_muted : DB :=
  mkDB [s_muted] 2 [1; 2; 3] [thesis; garden] [] no_settings.

Definition plan_garden : Planning.t :=
  Planning.mk 1 2 (at_ 9 0) (at_ 10 0) medium None.

Definition plan_thesis : Planning.t :=
  Planning.mk 2 1 (at_ 14 0) (at_ 15 0) critical (Some "chapter 3").

(** One stopped session, started after [plan_garden] was due. *)
Definition db_stopped : DB :=
  mkDB [s_stopped] 2 [1; 2; 3] [thesis; garden] [plan_garden] no_settings.

(** No session, and a default interval of 3 minutes in the settings. *)
Definition db_default_3 : DB :=
  mkDB [] 1 [1; 2; 3] [thesis; garden] [plan_thesis]
       {[ "notification_interval_default" := 3 ]}.

Definition start_thesis : SessionStart.t :=
  SessionStart.mk (Some 1) 30 None [] None.

Definition start_garden : SessionStart.t :=
  SessionStart.mk (Some 2) 45 None [2; 7] None.

Definition a_morning : list (datetime * request) :=
  [ (at_ 9 0, Start start_thesis);
    (at_ 9 5, Start start_garden);
    (at_ 9 10, AddNote 1 "outline");
    (at_ 9 20, AddTime 1 15);
    (at_ 9 25, ToggleNotifications 1);
    (at_ 9 40, Stop 1 (Some [satisfaction_score_item (Some 80); tag_ids_item (Some [2])]));
    (at_ 9 41, Stop 1 None);
    (at_ 9 45, Start start_garden);
    (at_ 9 50, AddTime 1 (-5)) ].

Definition w0 : World := mkWorld ∅ [] [] [].

(** The daemon is up and the disk is writable. *)
Definition env_up : Env :=
  mkEnv (fun _ => Written "/tmp/notification.conf") (fun _ => None).

(** The daemon refuses every connection. *)
Definition env_down : Env :=
  mkEnv (fun _ => Written "/tmp/notification.conf")
        (fun _ => Some (OSError "Connection refused")).

End Examples.

(** ** Further vocabulary *)

(** The primary key of the sessions table: no two rows share an id and
    every id is below the next one to be given out. *)
Definition well_formed (db : DB) : Prop :=
  NoDup (Session.id <$> sessions db)
  /\ Forall (fun s => Session.id s < next_session_id db) (sessions db).

(** The three messages the session service raises. *)
Definition service_message (msg : string) : Prop :=
  msg = "Another session is already active"
  \/ msg = "Session not found"
  \/ msg = "Session already stopped".

(** The text of the notes column, empty when it is NULL. *)
Definition notes_text (s : Session.t) : string :=
  default EmptyString (Session.notes s).

(** The world after a computation. *)
Definition after {A} (m : M World A) (w : World) : World := snd (m w).

(** The two kinds of entity the worker keeps stamps for. *)
Definition worker_kind (item_type : string) : Prop :=
  item_type = "planning" \/ item_type = "session".

(** ** Vocabulary of the tick *)

(** The review data carry an explicit null for [tag_ids]. *)
Definition has_null_tag_ids (review_data : option (list review_item)) : bool :=
  match review_data with
  | Some items =>
      existsb (fun item => match item with
                           | tag_ids_item None => true
                           | _ => false
                           end) items
  | None => false
  end.

(** Some session was started from the plan. *)
Definition plan_started (db : DB) (plan : Planning.t) : bool :=
  existsb (fun s => bool_decide
                      (Session.planning_id s = Some (Planning.id plan)))
          (sessions db).

(** Some session that started at or after the plan's scheduled start is
    still open. *)
Definition work_in_progress (db : DB) (plan : Planning.t) : bool :=
  existsb (fun s => bool_decide
                      (Planning.scheduled_start plan <= Session.start_time s
                       /\ Session.end_time s = None))
          (sessions db).

(** The plan's scheduled start lies in the last five minutes. *)
Definition in_window (now : datetime) (plan : Planning.t) : bool :=
  bool_decide (now - minutes 5 <= Planning.scheduled_start plan <= now).

(** The interval of a plan's reminders: the interval of its project
    when that is set and not zero, and 10 minutes otherwise. *)
Definition plan_interval (db : DB) (plan : Planning.t) : Z :=
  match project_of db (Some (Planning.project_id plan)) with
  | Some p =>
      match Project.notification_interval p with
      | Some i => if bool_decide (i = 0) then 10 else i
      | None => 10
      end
  | None => 10
  end.

(** A plan is due at [now]: less than one whole minute has passed since
    its scheduled start, or the whole minutes passed are a multiple of
    its interval. *)
Definition plan_due (db : DB) (now : datetime) (plan : Planning.t) : bool :=
  let whole :=
    (now - Planning.scheduled_start plan) / microseconds_per_minute in
  (whole <? 1) || (whole mod plan_interval db plan =? 0).

(** A plan the tick has reached is to be notified: nobody started it,
    nothing newer is in progress, it is due, and it was not notified
    in the last 60 seconds. *)
Definition plan_ready (db : DB) (now : datetime) (w : World)
    (plan : Planning.t) : bool :=
  negb (plan_started db plan)
  && negb (work_in_progress db plan)
  && plan_due db now plan
  && negb (sent_recently w now (Planning.id plan) "planning").

Definition plan_eligible (db : DB) (now : datetime) (w : World)
    (plan : Planning.t) : bool :=
  in_window now plan && plan_ready db now w plan.

(** The active session is to be notified: notifications are enabled, it
    is due, and it was not notified in the last 60 seconds. *)
Definition session_ready (db : DB) (now : datetime) (w : World)
    (s : Session.t) : bool :=
  negb (Session.notification_disabled s)
  && session_due db now s
  && negb (sent_recently w now (Session.id s) "session").

Definition session_eligible (db : DB) (now : datetime) (w : World) : bool :=
  match SessionService.get_active_session db with
  | Some s => session_ready db now w s
  | None => false
  end.

(** A busy moment: at 09:00 a plan for the garden starts, another one
    for the garden is three minutes late, and a session on the thesis
    that was planned for an hour has been running since 08:00. *)
Module Busy.
Definition plan_now : Planning.t :=
  Planning.mk 1 2 (Examples.at_ 9 0) (Examples.at_ 10 0) medium None.

Definition plan_late : Planning.t :=
  Planning.mk 3 2 (Examples.at_ 8 57) (Examples.at_ 9 30) critical None.

Definition session : Session.t :=
  Session.mk 1 (Some 1) (Examples.at_ 8 0) None 60 None None None None
             false [].

Definition db : DB :=
  mkDB [session] 2 [] [Examples.thesis; Examples.garden]
       [plan_now; plan_late] Examples.no_settings.

Definition now : datetime := Examples.at_ 9 0.
End Busy.

(** * Properties *)

(** ** The session service *)

Section SessionServiceFacts.
Import SessionService.

Implicit Types (db : DB) (s r : Session.t) (rows : list Session.t).

Lemma find_active_none rows :
  List.find Session.is_active rows = None <-> active_count rows = 0%nat.
Proof.
  unfold active_count.
  induction rows as [|r rows IH]; simpl; [tauto|].
  destruct (Session.is_active r); simpl; [split; discriminate | exact IH].
Qed.

Lemma active_count_app rows rows' :
  active_count (rows ++ rows') = (active_count rows + active_count rows')%nat.
Proof. unfold active_count. now rewrite List.filter_app, length_app. Qed.

(** Writing back a row that is active only if the row it replaces was
    active does not add an active session. *)
Lemma active_count_update_row rows s r :
  List.find (fun x => Session.id x =? Session.id s) rows = Some r ->
  (Session.is_active s = true -> Session.is_active r = true) ->
  (active_count (update_row s rows) <= active_count rows)%nat.
Proof.
  unfold active_count.
  induction rows as [|x rows IH]; simpl; [discriminate|].
  intros Hfind Himp.
  destruct (Session.id x =? Session.id s) eqn:E.
  - injection Hfind as ->. simpl.
    destruct (Session.is_active s) eqn:Es.
    + rewrite (Himp eq_refl). simpl. lia.
    + destruct (Session.is_active r); simpl; lia.
  - simpl. specialize (IH Hfind Himp).
    destruct (Session.is_active x); simpl; lia.
Qed.

Lemma find_id_eq (sid : Z) rows r :
  List.find (fun x => Session.id x =? sid) rows = Some r -> Session.id r = sid.
Proof.
  intros H. apply List.find_some in H as [_ H]. now apply Z.eqb_eq in H.
Qed.

(** Looking a key up after a row was written back. *)
Lemma find_update_row (sid : Z) s rows :
  List.find (fun x => Session.id x =? sid) (update_row s rows) =
  if Session.id s =? sid then
    match List.find (fun x => Session.id x =? sid) rows with
    | Some _ => Some s
    | None => None
    end
  else List.find (fun x => Session.id x =? sid) rows.
Proof.
  induction rows as [|x rows IH]; simpl.
  - now destruct (Session.id s =? sid).
  - destruct (Session.id x =? Session.id s) eqn:Exs; simpl.
    + apply Z.eqb_eq in Exs. rewrite Exs.
      now destruct (Session.id s =? sid).
    + destruct (Session.id x =? sid) eqn:Ex.
      * destruct (Session.id s =? sid) eqn:Es; [|reflexivity].
        apply Z.eqb_eq in Ex, Es. apply Z.eqb_neq in Exs. congruence.
      * exact IH.
Qed.

Lemma find_app_some {A} (f : A -> bool) (l l' : list A) x :
  List.find f l = Some x -> List.find f (l ++ l') = Some x.
Proof.
  induction l as [|a l IH]; simpl; [discriminate|].
  destruct (f a); [tauto | exact IH].
Qed.

Lemma find_some_of_elem {A} (f : A -> bool) (l : list A) x :
  x ∈ l -> f x = true -> exists y, List.find f l = Some y.
Proof.
  intros Hin Hf. destruct (List.find f l) eqn:E; [eauto|].
  apply list_elem_of_In in Hin.
  pose proof (List.find_none f l E x Hin). congruence.
Qed.

(** The review items leave the key and the two time stamps alone. *)
Lemma apply_review_frame db items s s' :
  apply_review db items s = Ok s' ->
  Session.id s' = Session.id s
  /\ Session.start_time s' = Session.start_time s
  /\ Session.end_time s' = Session.end_time s.
Proof.
  revert s. induction items as [|it items IH]; intros s; simpl.
  - now intros [= ->].
  - destruct (apply_review_item db s it) as [s1|e] eqn:E; [|discriminate].
    intros H. destruct (IH _ H) as (-> & -> & ->).
    destruct it as [v|v|v|[v|]]; simpl in E; try discriminate;
      injection E as <-; now repeat split.
Qed.

Ltac run_service :=
  unfold start_session, stop_session, add_note, add_time,
    toggle_notifications, commit, add, mbind, M_bind, bind, get, modify,
    mret, M_ret, ret, raise, get_active_session, get_by_id in *;
  simpl in *.

Lemma handle_table_step now (q : request) db :
  table_step (sessions db) (sessions (snd (handle now q db))).
Proof.
  destruct q as [d | i rv | i n | i m | i]; simpl; run_service.
  - destruct (List.find Session.is_active (sessions db)) eqn:E; simpl.
    + constructor.
    + now apply step_add.
  - destruct (List.find _ (sessions db)) as [r|] eqn:E; simpl; [|constructor].
    destruct (Session.end_time r) eqn:Er; simpl; [constructor|].
    pose proof (find_id_eq _ _ _ E) as Hid.
    destruct rv as [[|it items]|]; simpl.
    + apply step_update with (r := r); simpl; auto. now rewrite Hid.
    + change (match apply_review_item db (Session.set_end_time (Some now) r) it
              with
              | Ok session' => apply_review db items session'
              | Raise e => Raise e
              end)
        with (apply_review db (it :: items) (Session.set_end_time (Some now) r)).
      destruct (apply_review db (it :: items)
                  (Session.set_end_time (Some now) r)) as [s'|e] eqn:Er';
        simpl; [|constructor].
      destruct (apply_review_frame _ _ _ _ Er') as (Hi & Hs & _).
      apply step_update with (r := r).
      * rewrite Hi. simpl. now rewrite Hid.
      * rewrite Hs. reflexivity.
      * now right.
    + apply step_update with (r := r); simpl; auto. now rewrite Hid.
  - destruct (List.find _ (sessions db)) as [r|] eqn:E; simpl; [|constructor].
    pose proof (find_id_eq _ _ _ E) as Hid.
    destruct (Session.notes r) as [[|c old]|]; simpl;
      apply step_update with (r := r); simpl; auto; now rewrite Hid.
  - destruct (List.find _ (sessions db)) as [r|] eqn:E; simpl; [|constructor].
    pose proof (find_id_eq _ _ _ E) as Hid.
    apply step_update with (r := r); simpl; auto; now rewrite Hid.
  - destruct (List.find _ (sessions db)) as [r|] eqn:E; simpl; [|constructor].
    pose proof (find_id_eq _ _ _ E) as Hid.
    apply step_update with (r := r); simpl; auto; now rewrite Hid.
Qed.

Lemma table_step_active_count rows rows' :
  table_step rows rows' ->
  (active_count rows <= 1)%nat -> (active_count rows' <= 1)%nat.
Proof.
  intros Hstep Hle. destruct Hstep as [| s Hnone | s r Hfind _ Hend].
  - exact Hle.
  - apply find_active_none in Hnone.
    rewrite active_count_app, Hnone. unfold active_count. simpl.
    destruct (Session.is_active s); simpl; lia.
  - etransitivity; [|exact Hle].
    apply active_count_update_row with (r := r); [exact Hfind|].
    unfold Session.is_active.
    destruct Hend as [-> | ->]; [tauto | reflexivity].
Qed.

Lemma observed_active_count reqs db :
  (active_count (sessions db) <= 1)%nat ->
  Forall (fun d => (active_count (sessions d) <= 1)%nat) (observed reqs db).
Proof.
  revert db. induction reqs as [|[now q] reqs IH]; intros db Hle; simpl.
  - now constructor.
  - constructor; [exact Hle|].
    apply IH. eapply table_step_active_count; [apply handle_table_step | exact Hle].
Qed.

(** A stopped session keeps its start and end times through any step of
    the table. *)
Lemma table_step_stopped rows rows' (sid : Z) x e :
  table_step rows rows' ->
  List.find (fun y => Session.id y =? sid) rows = Some x ->
  Session.end_time x = Some e ->
  exists x', List.find (fun y => Session.id y =? sid) rows' = Some x'
             /\ Session.end_time x' = Some e
             /\ Session.start_time x' = Session.start_time x.
Proof.
  intros Hstep Hx He. destruct Hstep as [| s Hnone | s r Hfind Hstart Hend].
  - eauto.
  - exists x. split; [now apply find_app_some | tauto].
  - rewrite find_update_row.
    destruct (Session.id s =? sid) eqn:Es.
    + apply Z.eqb_eq in Es. rewrite Es in Hfind.
      rewrite Hx in Hfind |- *. injection Hfind as <-.
      exists s. split; [reflexivity|]. split; [|exact Hstart].
      destruct Hend as [-> | Habs]; [exact He | congruence].
    + eauto.
Qed.

Lemma observed_stopped reqs db (sid : Z) x e :
  get_by_id db sid = Some x ->
  Session.end_time x = Some e ->
  Forall (fun d =>
            Session.actual_duration <$> get_by_id d sid
            = Some (Session.actual_duration x))
         (observed reqs db).
Proof.
  revert db x. induction reqs as [|[now q] reqs IH]; intros db x Hx He; simpl.
  - constructor; [now rewrite Hx | constructor].
  - constructor; [now rewrite Hx|].
    destruct (table_step_stopped _ _ sid x e (handle_table_step now q db) Hx He)
      as (x' & Hx' & He' & Hs').
    assert (Hd : Session.actual_duration x' = Session.actual_duration x)
      by (unfold Session.actual_duration; now rewrite He', He, Hs').
    rewrite <- Hd. now apply IH.
Qed.

End SessionServiceFacts.

Section SessionServiceClaims.
Import SessionService.

(** C1.  Whatever sequence of requests (start, stop, add note, add
    time, toggle notifications) is served on a store that holds no
    active session, every store observed along the way, the first and
    the last included, holds at most one session whose [end_time] is
    [None]. *)
Theorem single_active_session reqs db :
  active_count (sessions db) = 0%nat ->
  Forall (fun d => (active_count (sessions d) <= 1)%nat) (observed reqs db).
Proof. intros H0. apply observed_active_count. lia. Qed.

Lemma single_active_session_witness :
  active_count (sessions Examples.db_empty) = 0%nat /\
  Forall (fun d => (active_count (sessions d) <= 1)%nat)
         (observed Examples.a_morning Examples.db_empty).
Proof.
  split; [reflexivity|].
  apply (single_active_session Examples.a_morning Examples.db_empty).
  reflexivity.
Defined.

(** C2.  When the store holds an active session (a row whose
    [end_time] is [None]), [start_session] raises the conflict error
    "Another session is already active" and returns the store it was
    given: no row is added or changed, so the session that was active
    still is. *)
Theorem start_session_conflict db now session_data s :
  s ∈ sessions db ->
  Session.end_time s = None ->
  start_session now session_data db
    = (Raise (ValueError "Another session is already active"), db)
  /\ get_active_session (snd (start_session now session_data db))
    = get_active_session db.
Proof.
  intros Hin Hend.
  assert (Hact : Session.is_active s = true)
    by (unfold Session.is_active; now rewrite Hend).
  destruct (find_some_of_elem _ _ _ Hin Hact) as [y Hy].
  assert (Heq : start_session now session_data db
                = (Raise (ValueError "Another session is already active"), db)).
  { unfold start_session, mbind, M_bind, bind, get, get_active_session.
    now rewrite Hy. }
  split; [exact Heq | now rewrite Heq].
Qed.

Lemma start_session_conflict_witness :
  Examples.s_active ∈ sessions Examples.db_active /\
  Session.end_time Examples.s_active = None /\
  start_session (Examples.at_ 9 5) Examples.start_garden Examples.db_active
    = (Raise (ValueError "Another session is already active"), Examples.db_active).
Proof.
  split; [apply list_elem_of_here|]. split; [reflexivity|].
  apply (start_session_conflict Examples.db_active (Examples.at_ 9 5)
           Examples.start_garden Examples.s_active);
    [apply list_elem_of_here | reflexivity].
Defined.

(** C4.  Stopping an existing active session without review data sets
    [end_time] to the current time and leaves [satisfaction_score],
    [tasks_done], [notes] and [tags] (and every other column) as they
    were.  From then on [actual_duration] is the whole number of minutes
    between [start_time] and that end time, and it keeps this value in
    every store observed while further requests are served. *)
Theorem stop_session_quick db now (session_id : Z) s :
  get_by_id db session_id = Some s ->
  Session.end_time s = None ->
  exists s' db',
    stop_session now session_id None db = (Ok s', db')
    /\ get_by_id db' session_id = Some s'
    /\ Session.end_time s' = Some now
    /\ Session.satisfaction_score s' = Session.satisfaction_score s
    /\ Session.tasks_done s' = Session.tasks_done s
    /\ Session.notes s' = Session.notes s
    /\ Session.tags s' = Session.tags s
    /\ Session.id s' = Session.id s
    /\ Session.project_id s' = Session.project_id s
    /\ Session.planning_id s' = Session.planning_id s
    /\ Session.start_time s' = Session.start_time s
    /\ Session.planned_duration s' = Session.planned_duration s
    /\ Session.notification_disabled s' = Session.notification_disabled s
    /\ Session.actual_duration s'
       = Some (Z.quot (now - Session.start_time s) microseconds_per_minute)
    /\ forall reqs,
         Forall (fun d =>
                   Session.actual_duration <$> get_by_id d session_id
                   = Some (Some (Z.quot (now - Session.start_time s)
                                        microseconds_per_minute)))
                (observed reqs db').
Proof.
  intros Hs Hend.
  set (s' := Session.set_end_time (Some now) s).
  exists s', (set_sessions (update_row s' (sessions db)) db).
  assert (Hfound : get_by_id (set_sessions (update_row s' (sessions db)) db)
                             session_id = Some s').
  { unfold get_by_id in *. simpl. rewrite find_update_row. simpl.
    rewrite (find_id_eq _ _ _ Hs), Z.eqb_refl. now rewrite Hs. }
  split.
  { unfold stop_session, mbind, M_bind, bind, get. now rewrite Hs, Hend. }
  split; [exact Hfound|].
  repeat (split; [reflexivity|]).
  intros reqs.
  apply (observed_stopped reqs _ session_id _ now Hfound eq_refl).
Qed.

Lemma stop_session_quick_witness :
  get_by_id Examples.db_active 1 = Some Examples.s_active /\
  Session.end_time Examples.s_active = None /\
  exists s' db',
    stop_session (Examples.at_ 9 35) 1 None Examples.db_active = (Ok s', db')
    /\ Session.end_time s' = Some (Examples.at_ 9 35)
    /\ Session.actual_duration s' = Some 35.
Proof.
  split; [reflexivity|]. split; [reflexivity|].
  destruct (stop_session_quick Examples.db_active (Examples.at_ 9 35) 1
              Examples.s_active eq_refl eq_refl)
    as (s' & db' & H1 & _ & H2 & _ & _ & _ & _ & _ & _ & _ & _ & _ & _ & H3 & _).
  exists s', db'. split; [exact H1|]. split; [exact H2 | exact H3].
Defined.

(** C5, the statement the claim makes, at two inputs: adding 15 minutes
    to a stopped session succeeds, and so does adding -5 or 0 minutes to
    the active one. *)
Lemma add_time_counterexample :
  (Session.is_active <$> get_by_id Examples.db_stopped 1 = Some false
   /\ Session.planned_duration
        <$> (match fst (add_time 1 15 Examples.db_stopped) with
             | Ok s' => Some s' | Raise _ => None end) = Some 45)
  /\ (Session.is_active <$> get_by_id Examples.db_active 1 = Some true
      /\ Session.planned_duration
           <$> (match fst (add_time 1 (-5) Examples.db_active) with
                | Ok s' => Some s' | Raise _ => None end) = Some 25
      /\ Session.planned_duration
           <$> (match fst (add_time 1 0 Examples.db_active) with
                | Ok s' => Some s' | Raise _ => None end) = Some 30).
Proof. repeat split; reflexivity. Qed.

(** C5, as the service has it.  [add_time] raises exactly when no
    session has the given id ("Session not found"), and then leaves the
    store as it was.  For a session that exists, active or stopped, and
    for any integer [minutes], positive or not, it writes back that
    session with [planned_duration] increased by exactly [minutes] and
    every other column unchanged, and no other row is touched. *)
Theorem add_time_spec db (session_id minutes : Z) :
  match get_by_id db session_id with
  | None =>
      add_time session_id minutes db
      = (Raise (ValueError "Session not found"), db)
  | Some s =>
      exists s' db',
        add_time session_id minutes db = (Ok s', db')
        /\ get_by_id db' session_id = Some s'
        /\ (forall other, other <> session_id ->
                          get_by_id db' other = get_by_id db other)
        /\ Session.planned_duration s' = Session.planned_duration s + minutes
        /\ Session.id s' = Session.id s
        /\ Session.project_id s' = Session.project_id s
        /\ Session.planning_id s' = Session.planning_id s
        /\ Session.start_time s' = Session.start_time s
        /\ Session.end_time s' = Session.end_time s
        /\ Session.notes s' = Session.notes s
        /\ Session.satisfaction_score s' = Session.satisfaction_score s
        /\ Session.tasks_done s' = Session.tasks_done s
        /\ Session.notification_disabled s' = Session.notification_disabled s
        /\ Session.tags s' = Session.tags s
  end.
Proof.
  destruct (get_by_id db session_id) as [s|] eqn:Hs.
  - set (s' := Session.set_planned_duration
                 (Session.planned_duration s + minutes) s).
    exists s', (set_sessions (update_row s' (sessions db)) db).
    pose proof (find_id_eq _ _ _ Hs) as Hid.
    split.
    { unfold add_time, mbind, M_bind, bind, get. now rewrite Hs. }
    split.
    { unfold get_by_id in *. simpl. rewrite find_update_row. simpl.
      rewrite Hid, Z.eqb_refl. now rewrite Hs. }
    split.
    { intros other Hne. unfold get_by_id. simpl. rewrite find_update_row. simpl.
      rewrite Hid. destruct (session_id =? other) eqn:E; [|reflexivity].
      apply Z.eqb_eq in E. congruence. }
    repeat (split; [reflexivity|]). reflexivity.
  - unfold add_time, mbind, M_bind, bind, get. now rewrite Hs.
Qed.

End SessionServiceClaims.

(** ** Elapsed time and overtime *)

Section ElapsedTime.
Import SessionStore.

Lemma elapsedMinutes_floor (now : Z) (a : active_session) :
  elapsedMinutes now (Some a) = (now - start_time a) / 60000.
Proof.
  unfold elapsedMinutes. rewrite Zdiv_Qdiv.
  apply Qfloor_comp. unfold Qeq, Qdiv, Qmult, Qinv, inject_Z. simpl. lia.
Qed.

(** The worker's comparison of the exact quotient with a whole number
    of minutes agrees with the comparison of its floor. *)
Lemma minutes_between_lt (now start : datetime) (n : Z) :
  Qlt_bool (minutes_between now start) (inject_Z n)
  = ((now - start) / microseconds_per_minute <? n).
Proof.
  unfold Qlt_bool, Qle_bool, minutes_between, total_seconds, Qdiv, Qmult,
    Qinv, inject_Z, microseconds_per_minute, microseconds_per_second.
  simpl.
  change (Z.pos (1000000 * 60)) with 60000000.
  change (60 * 1000000) with 60000000.
  pose proof (Z.div_mod (now - start) 60000000 ltac:(lia)) as Hdm.
  pose proof (Z.mod_pos_bound (now - start) 60000000 ltac:(lia)) as Hr.
  destruct (Z.ltb_spec ((now - start) / 60000000) n) as [Hlt | Hge].
  - apply negb_true_iff, Z.leb_gt. lia.
  - apply negb_false_iff, Z.leb_le. lia.
Qed.

(** The worker's whole minutes of overtime [k] minutes after the start
    of a session planned for [p] minutes. *)
Lemma overtime_at_whole_minutes (start k p : Z) :
  int_of (minutes_between (start + minutes k) start - inject_Z p) = k - p.
Proof.
  unfold int_of, minutes_between, total_seconds, minutes,
    microseconds_per_minute, microseconds_per_second.
  replace (start + k * (60 * 1000000) - start) with (k * 60000000) by lia.
  unfold Qminus, Qplus, Qopp, Qdiv, Qmult, Qinv, inject_Z. simpl.
  change (Z.pos (1000000 * 60 * 1)) with 60000000.
  change (Z.pos (1000000 * 60)) with 60000000.
  replace (k * 60000000 * 1 * 1 + - p * 60000000) with ((k - p) * 60000000)
    by lia.
  apply Z.quot_mul. lia.
Qed.

(** C3.  The derived facts follow the floor of the elapsed minutes:
    [elapsedMinutes] is the integer quotient of the elapsed
    milliseconds by 60000 (so it is [k] from [T + k] minutes up to the
    next whole minute), and for a session planned for 60 minutes and
    started at [T], [isOvertime] is false at [T + 59] minutes,
    [overtimeMinutes] is 0 at [T + 60] minutes, and at [T + 61] minutes
    [isOvertime] is true and [overtimeMinutes] is 1.  The worker's test
    "not yet time" is the same comparison on the floor: it holds at
    [start + 59] minutes, and the worker counts 0 and 1 whole minutes
    of overtime at [start + 60] and [start + 61] minutes. *)
Theorem overtime_floor_minute (T : Z) (a : active_session) :
  start_time a = T ->
  planned_duration a = 60 ->
  (forall now, elapsedMinutes now (Some a) = (now - T) / 60000)
  /\ (forall now k, T + k * 60000 <= now < T + (k + 1) * 60000 ->
                    elapsedMinutes now (Some a) = k)
  /\ isOvertime (T + 59 * 60000) (Some a) = false
  /\ overtimeMinutes (T + 60 * 60000) (Some a) = 0
  /\ isOvertime (T + 61 * 60000) (Some a) = true
  /\ overtimeMinutes (T + 61 * 60000) (Some a) = 1
  /\ (forall (now start : datetime) (planned : Z),
        Qlt_bool (minutes_between now start) (inject_Z planned)
        = ((now - start) / microseconds_per_minute <? planned))
  /\ (forall start : datetime,
        Qlt_bool (minutes_between (start + minutes 59) start) (inject_Z 60)
        = true
        /\ int_of (minutes_between (start + minutes 60) start - inject_Z 60) = 0
        /\ int_of (minutes_between (start + minutes 61) start - inject_Z 60) = 1).
Proof.
  intros HT Hp.
  assert (Hfloor : forall now, elapsedMinutes now (Some a) = (now - T) / 60000)
    by (intros now; rewrite elapsedMinutes_floor; now rewrite HT).
  assert (Hat : forall k, elapsedMinutes (T + k * 60000) (Some a) = k).
  { intros k. rewrite Hfloor.
    replace (T + k * 60000 - T) with (k * 60000) by lia.
    apply Z.div_mul. lia. }
  split; [exact Hfloor|].
  split.
  { intros now k Hk. rewrite Hfloor. symmetry.
    apply Z.div_unique with (r := now - T - k * 60000); lia. }
  unfold isOvertime, overtimeMinutes. rewrite !Hat, Hp.
  repeat (split; [reflexivity|]).
  split; [apply minutes_between_lt|].
  intros start. rewrite minutes_between_lt, !overtime_at_whole_minutes.
  replace (start + minutes 59 - start) with (59 * microseconds_per_minute)
    by (unfold minutes; lia).
  rewrite Z.div_mul by discriminate. now repeat split.
Qed.

Lemma overtime_floor_minute_witness :
  let a := SessionStore.mk 36000000 60 in
  start_time a = 36000000 /\
  planned_duration a = 60 /\
  isOvertime (36000000 + 59 * 60000) (Some a) = false /\
  overtimeMinutes (36000000 + 61 * 60000) (Some a) = 1.
Proof.
  split; [reflexivity|]. split; [reflexivity|].
  destruct (overtime_floor_minute 36000000 (SessionStore.mk 36000000 60)
              eq_refl eq_refl) as (_ & _ & H59 & _ & _ & H61 & _ & _).
  split; [exact H59 | exact H61].
Defined.

End ElapsedTime.

(** ** The notification service and the deduplication cache *)

Section Dispatch.
Import NotificationService NotificationWorker.

(** Whatever the outside does, [send_notification] returns; it has
    recorded the call and left the cache alone. *)
Lemma send_notification_returns env (t m u : string) (i : option string)
    (timeout : Z) (w : World) :
  exists b w',
    send_notification env t m u i timeout w = (Ok b, w')
    /\ calls w' = calls w ++ [mkNotification t m u]
    /\ _notification_cache w' = _notification_cache w.
Proof.
  unfold send_notification, _write_temp_config, _send_to_service, print,
    try_except, mbind, M_bind, bind, get, modify, mret, M_ret, ret, raise.
  simpl.
  destruct (write_temp env (length (calls w))) as [path | e]; simpl;
    [destruct (connect env (length (calls w))) as [e|]; simpl |];
    eexists _, _; (split; [reflexivity|]); split; reflexivity.
Qed.

Lemma send_then_unit_one_call env (t m u : string) (i : option string)
    (timeout : Z) :
  one_call (send_notification env t m u i timeout;; mret tt)
           (mkNotification t m u).
Proof.
  intros w.
  destruct (send_notification_returns env t m u i timeout w)
    as (b & w' & Hsend & Hcalls & Hcache).
  exists w'. split; [|tauto].
  unfold mbind, M_bind, bind. now rewrite Hsend.
Qed.

Lemma total_seconds_lt_60 (d : timedelta) :
  Qlt_bool (total_seconds d) (inject_Z 60) = (d <? seconds 60).
Proof.
  unfold Qlt_bool, Qle_bool, total_seconds, inject_Z, seconds,
    microseconds_per_second. simpl.
  destruct (Z.ltb_spec d (60 * 1000000)).
  - apply negb_true_iff, Z.leb_gt. lia.
  - apply negb_false_iff, Z.leb_le. lia.
Qed.

Lemma was_sent_recently_eq now (item_id : Z) (item_type : string) w :
  _was_notification_sent_recently now item_id item_type w
  = (Ok (sent_recently w now item_id item_type), w).
Proof.
  unfold _was_notification_sent_recently, sent_recently, mbind, M_bind, bind,
    get, mret, M_ret, ret.
  destruct (_notification_cache w !! cache_key item_id item_type); simpl;
    [now rewrite total_seconds_lt_60 | reflexivity].
Qed.

(** One attempt: skipped when the key was stamped less than 60 seconds
    ago, otherwise one call and the key stamped with [now]. *)
Lemma notify_unless_recent_spec now (item_id : Z) (item_type : string)
    (send : M World unit) (n : Notification) (w : World) :
  one_call send n ->
  exists w',
    notify_unless_recent now item_id item_type send w = (Ok tt, w')
    /\ if sent_recently w now item_id item_type then w' = w
       else calls w' = calls w ++ [n]
            /\ _notification_cache w'
               = <[cache_key item_id item_type := now]> (_notification_cache w).
Proof.
  intros Hsend.
  unfold notify_unless_recent, mbind, M_bind, bind.
  rewrite was_sent_recently_eq.
  destruct (sent_recently w now item_id item_type); simpl.
  - exists w. split; reflexivity.
  - destruct (Hsend w) as (w' & -> & Hcalls & Hcache).
    unfold _mark_notification_sent, modify. simpl.
    eexists. split; [reflexivity|]. simpl. now rewrite Hcache.
Qed.

(** C9.  For every entity and kind, and whatever is sent: a dispatch
    attempt that is not itself suppressed makes one call to the
    notification service and stamps the key with its own [now]; a
    second attempt less than 60 seconds later makes no further call
    (one call in all), and a second attempt more than 60 seconds later
    makes a second call and stamps the key again. *)
Theorem dedup_within_ttl env (item_id : Z) (item_type t m u : string)
    (t1 t2 : datetime) (w : World) :
  let key := cache_key item_id item_type in
  let attempt now :=
    notify_unless_recent now item_id item_type
      (send_notification env t m u None 5000;; mret tt) in
  let w1 := snd (attempt t1 w) in
  let w2 := snd (attempt t2 w1) in
  sent_recently w t1 item_id item_type = false ->
  calls w1 = calls w ++ [mkNotification t m u]
  /\ _notification_cache w1 !! key = Some t1
  /\ (t2 - t1 < seconds 60 -> calls w2 = calls w ++ [mkNotification t m u])
  /\ (seconds 60 < t2 - t1 ->
      calls w2 = calls w ++ [mkNotification t m u; mkNotification t m u]
      /\ _notification_cache w2 !! key = Some t2).
Proof.
  intros key attempt w1 w2 Hfresh.
  pose proof (send_then_unit_one_call env t m u None 5000) as Hone.
  destruct (notify_unless_recent_spec t1 item_id item_type _ _ w Hone)
    as (w1' & E1 & H1).
  rewrite Hfresh in H1. destruct H1 as [Hc1 Hk1].
  assert (Hw1 : w1 = w1') by (unfold w1, attempt; now rewrite E1).
  assert (Hstamp : _notification_cache w1 !! key = Some t1)
    by (rewrite Hw1, Hk1; apply lookup_insert_eq).
  destruct (notify_unless_recent_spec t2 item_id item_type _ _ w1 Hone)
    as (w2' & E2 & H2).
  assert (Hw2 : w2 = w2') by (unfold w2, attempt; now rewrite E2).
  assert (Hrec : sent_recently w1 t2 item_id item_type = (t2 - t1 <? seconds 60))
    by (unfold sent_recently; fold key; now rewrite Hstamp).
  rewrite Hrec in H2.
  split; [now rewrite Hw1|]. split; [exact Hstamp|]. split.
  - intros Hlt. apply Z.ltb_lt in Hlt. rewrite Hlt in H2.
    rewrite Hw2, H2, Hw1. exact Hc1.
  - intros Hgt. assert (Hge : (t2 - t1 <? seconds 60) = false)
      by (apply Z.ltb_ge; lia).
    rewrite Hge in H2. destruct H2 as [Hc2 Hk2].
    split.
    + rewrite Hw2, Hc2, Hw1, Hc1, <- app_assoc. reflexivity.
    + rewrite Hw2, Hk2. apply lookup_insert_eq.
Qed.

Lemma dedup_within_ttl_witness :
  let attempt now :=
    notify_unless_recent now 7 "session"
      (send_notification Examples.env_up "Title" "Body" "normal" None 5000;;
       mret tt) in
  sent_recently Examples.w0 (Examples.at_ 10 0) 7 "session" = false
  /\ calls (snd (attempt (Examples.at_ 10 0 + seconds 30)
                   (snd (attempt (Examples.at_ 10 0) Examples.w0))))
     = [mkNotification "Title" "Body" "normal"].
Proof.
  split; [reflexivity|].
  destruct (dedup_within_ttl Examples.env_up 7 "session" "Title" "Body" "normal"
              (Examples.at_ 10 0) (Examples.at_ 10 0 + seconds 30) Examples.w0
              eq_refl) as (_ & _ & Hin & _).
  apply Hin. reflexivity.
Defined.

End Dispatch.

(** ** The two checks of a tick *)

Section Checks.
Import SessionService NotificationService NotificationWorker.

Lemma send_session_one_call env db (s : Session.t) (overtime : Q) :
  exists n, one_call (_send_session_notification env db s overtime) n.
Proof.
  unfold _send_session_notification.
  destruct (Qlt_bool overtime (inject_Z 1));
    eexists; apply send_then_unit_one_call.
Qed.

(** C6, the statement the claim makes, at one input: the only session
    started after the plan was due and has already ended, no session
    was started from the plan, and the tick three minutes after the
    scheduled start (the project's interval is 3) sends the reminder. *)
Lemma planning_skip_counterexample :
  Examples.s_stopped ∈ sessions Examples.db_stopped
  /\ Planning.scheduled_start Examples.plan_garden
     <= Session.start_time Examples.s_stopped
  /\ Session.is_active Examples.s_stopped = false
  /\ title <$> calls (snd (_check_planning_notifications Examples.env_up
                             Examples.db_stopped (Examples.at_ 9 3) Examples.w0))
     = ["Planning Reminder"].
Proof.
  split; [apply list_elem_of_here|].
  split; [vm_compute; discriminate|].
  split; reflexivity.
Qed.

(** C6, as the worker has it.  A planning entry is skipped, without a
    call to the notification service and without a change of the
    cache, whenever some session started at or after the entry's
    scheduled start and is still active. *)
Theorem planning_skipped_for_active_session env db now plan s w :
  s ∈ sessions db ->
  Planning.scheduled_start plan <= Session.start_time s ->
  Session.end_time s = None ->
  check_plan env db now plan w = (Ok tt, w).
Proof.
  intros Hin Hstart Hend.
  unfold check_plan.
  destruct (session_from_plan db plan); [reflexivity|].
  assert (Hf : (Planning.scheduled_start plan <=? Session.start_time s)
               && Session.is_active s = true).
  { apply andb_true_iff. split; [now apply Z.leb_le|].
    unfold Session.is_active. now rewrite Hend. }
  destruct (find_some_of_elem
              (fun x => (Planning.scheduled_start plan <=? Session.start_time x)
                        && Session.is_active x) _ _ Hin Hf) as [y Hy].
  unfold any_recent_session. now rewrite Hy.
Qed.

Lemma planning_skipped_for_active_session_witness :
  Examples.s_active ∈ sessions Examples.db_active
  /\ Planning.scheduled_start Examples.plan_garden
     <= Session.start_time Examples.s_active
  /\ Session.end_time Examples.s_active = None
  /\ check_plan Examples.env_up Examples.db_active (Examples.at_ 9 3)
                Examples.plan_garden Examples.w0
     = (Ok tt, Examples.w0).
Proof.
  split; [apply list_elem_of_here|].
  split; [vm_compute; discriminate|].
  split; [reflexivity|].
  apply (planning_skipped_for_active_session Examples.env_up Examples.db_active
           (Examples.at_ 9 3) Examples.plan_garden Examples.s_active Examples.w0).
  - apply list_elem_of_here.
  - vm_compute; discriminate.
  - reflexivity.
Defined.

(** The planning interval never reads the settings. *)
Lemma planning_interval_settings db (st : gmap string Z) plan :
  planning_interval
    (mkDB (sessions db) (next_session_id db) (tag_table db) (projects db)
          (planning db) st) plan
  = planning_interval db plan.
Proof. reflexivity. Qed.

(** C7, evaluated.  The settings hold a default interval of 3 minutes,
    the plan's project has no interval of its own, no session exists,
    and the tick comes 3 whole minutes after the scheduled start: a
    reminder is due by the default interval.  The planning check takes
    10 for the interval and sends nothing; the session check reads the
    default from the settings. *)
Theorem planning_reminder_ignores_default_setting :
  settings Examples.db_default_3 !! "notification_interval_default" = Some 3
  /\ Project.notification_interval Examples.thesis = None
  /\ int_of (minutes_between (Examples.at_ 14 3)
               (Planning.scheduled_start Examples.plan_thesis)) = 3
  /\ 3 mod 3 = 0
  /\ planning_interval Examples.db_default_3 Examples.plan_thesis = 10
  /\ planning_should_notify Examples.db_default_3 (Examples.at_ 14 3)
       Examples.plan_thesis = false
  /\ _check_planning_notifications Examples.env_up Examples.db_default_3
       (Examples.at_ 14 3) Examples.w0 = (Ok tt, Examples.w0)
  /\ session_interval Examples.db_default_3 Examples.s_active = 3.
Proof. repeat split; reflexivity. Qed.

Lemma find_active_update_row rows (s s' : Session.t) :
  List.find Session.is_active rows = Some s ->
  List.find (fun x => Session.id x =? Session.id s) rows = Some s ->
  Session.id s' = Session.id s ->
  Session.is_active s' = true ->
  List.find Session.is_active (update_row s' rows) = Some s'.
Proof.
  intros Hact Hid Hsame Hs'. rewrite <- Hsame in Hid.
  induction rows as [|x rows IH]; simpl in *; [discriminate|].
  destruct (Session.id x =? Session.id s') eqn:E; simpl.
  - now rewrite Hs'.
  - destruct (Session.is_active x) eqn:Ex.
    + injection Hact as ->. rewrite Hsame, Z.eqb_refl in E. discriminate.
    + now apply IH.
Qed.

(** C8.  While the active session has [notification_disabled] set, the
    session check of a tick does nothing, at whatever time and in
    whatever state of the cache: no call, no stamp, no exception.
    Toggling the flag clears it, and from then on the session check
    makes a call exactly when the session is due at that tick and was
    not notified in the last 60 seconds; otherwise it still makes
    none. *)
Theorem muted_session_not_notified env db (s : Session.t) :
  get_active_session db = Some s ->
  get_by_id db (Session.id s) = Some s ->
  Session.notification_disabled s = true ->
  (forall now w, _check_session_notifications env db now w = (Ok tt, w))
  /\ exists s' db',
       toggle_notifications (Session.id s) db = (Ok s', db')
       /\ get_active_session db' = Some s'
       /\ Session.notification_disabled s' = false
       /\ forall now w,
            let w' := snd (_check_session_notifications env db' now w) in
            if session_due db' now s'
               && negb (sent_recently w now (Session.id s') "session")
            then exists n, calls w' = calls w ++ [n]
            else calls w' = calls w.
Proof.
  intros Hact Hid Hflag. split.
  { intros now w. unfold _check_session_notifications. now rewrite Hact, Hflag. }
  set (s' := Session.set_notification_disabled
               (negb (Session.notification_disabled s)) s).
  set (db' := set_sessions (update_row s' (sessions db)) db).
  exists s', db'.
  assert (Hact' : get_active_session db' = Some s').
  { unfold get_active_session, get_by_id in *. simpl.
    apply find_active_update_row with (s := s); auto.
    apply List.find_some in Hact as [_ Ha]. exact Ha. }
  split.
  { unfold toggle_notifications, mbind, M_bind, bind, get. now rewrite Hid. }
  split; [exact Hact'|].
  assert (Hflag' : Session.notification_disabled s' = false)
    by (simpl; now rewrite Hflag).
  split; [exact Hflag'|].
  intros now w.
  unfold _check_session_notifications, session_due.
  rewrite Hact', Hflag'.
  set (el := minutes_between now (Session.start_time s')).
  set (ov := (el - inject_Z (Session.planned_duration s'))%Q).
  destruct (Qlt_bool el (inject_Z (Session.planned_duration s'))); simpl;
    [reflexivity|].
  destruct (send_session_one_call env db' s' ov) as [n Hone].
  unfold mbind, M_bind, bind.
  destruct (Qlt_bool ov (inject_Z 1)); simpl.
  - destruct (notify_unless_recent_spec now (Session.id s) "session" _ n w Hone)
      as (w' & -> & Hw').
    destruct (sent_recently w now (Session.id s) "session"); simpl.
    + now rewrite Hw'.
    + exists n. tauto.
  - unfold py_mod.
    destruct (session_interval db' s' =? 0); simpl; [reflexivity|].
    destruct (int_of ov mod session_interval db' s' =? 0); simpl; [|reflexivity].
    destruct (notify_unless_recent_spec now (Session.id s) "session" _ n w Hone)
      as (w' & -> & Hw').
    destruct (sent_recently w now (Session.id s) "session"); simpl.
    + now rewrite Hw'.
    + exists n. tauto.
Qed.

Lemma muted_session_not_notified_witness :
  get_active_session Examples.db_muted = Some Examples.s_muted
  /\ get_by_id Examples.db_muted 1 = Some Examples.s_muted
  /\ Session.notification_disabled Examples.s_muted = true
  /\ _check_session_notifications Examples.env_up Examples.db_muted
       (Examples.at_ 11 0) Examples.w0 = (Ok tt, Examples.w0).
Proof.
  split; [reflexivity|]. split; [reflexivity|]. split; [reflexivity|].
  destruct (muted_session_not_notified Examples.env_up Examples.db_muted
              Examples.s_muted eq_refl eq_refl eq_refl) as [Hquiet _].
  apply Hquiet.
Defined.

End Checks.

(** ** Failures of the notification service *)

Section Containment.
Import NotificationService NotificationWorker.

Lemma sim_ret {A} (a : A) : sim (mret a) (mret a).
Proof. intros w1 w2 H. now split. Qed.

Lemma sim_raise {A} (e : exn) : sim (@raise World A e) (raise e).
Proof. intros w1 w2 H. now split. Qed.

Lemma sim_bind {A B} (m1 m2 : M World A) (k1 k2 : A -> M World B) :
  sim m1 m2 -> (forall a, sim (k1 a) (k2 a)) -> sim (m1 ≫= k1) (m2 ≫= k2).
Proof.
  intros Hm Hk w1 w2 Hw. unfold mbind, M_bind, bind.
  destruct (Hm w1 w2 Hw) as [Hr Hw'].
  destruct (m1 w1) as [[a1|e1] w1'], (m2 w2) as [[a2|e2] w2'];
    simpl in *; try discriminate.
  - injection Hr as ->. now apply Hk.
  - injection Hr as ->. now split.
Qed.

Lemma sim_try_except {A} (m1 m2 : M World A) (h1 h2 : exn -> M World A) :
  sim m1 m2 -> (forall e, sim (h1 e) (h2 e)) ->
  sim (try_except m1 h1) (try_except m2 h2).
Proof.
  intros Hm Hh w1 w2 Hw. unfold try_except.
  destruct (Hm w1 w2 Hw) as [Hr Hw'].
  destruct (m1 w1) as [[a1|e1] w1'], (m2 w2) as [[a2|e2] w2'];
    simpl in *; try discriminate.
  - injection Hr as ->. now split.
  - injection Hr as ->. now apply Hh.
Qed.

Lemma sim_print (l1 l2 : string) : sim (print l1) (print l2).
Proof. intros w1 w2 [Hc Hk]. unfold print, modify. simpl. now repeat split. Qed.

Lemma sim_one_call (s1 s2 : M World unit) (n : Notification) :
  one_call s1 n -> one_call s2 n -> sim s1 s2.
Proof.
  intros H1 H2 w1 w2 [Hc Hk].
  destruct (H1 w1) as (w1' & -> & Hk1 & Hc1).
  destruct (H2 w2) as (w2' & -> & Hk2 & Hc2).
  simpl. split; [reflexivity|]. split; congruence.
Qed.

Lemma sim_was_sent_recently now (item_id : Z) (item_type : string) :
  sim (_was_notification_sent_recently now item_id item_type)
      (_was_notification_sent_recently now item_id item_type).
Proof.
  intros w1 w2 [Hc Hk]. rewrite !was_sent_recently_eq. simpl.
  unfold sent_recently. rewrite Hc. now repeat split.
Qed.

Lemma sim_mark now (item_id : Z) (item_type : string) :
  sim (_mark_notification_sent now item_id item_type)
      (_mark_notification_sent now item_id item_type).
Proof.
  intros w1 w2 [Hc Hk]. unfold _mark_notification_sent, modify. simpl.
  split; [reflexivity|]. split; simpl; congruence.
Qed.

Lemma sim_notify_unless_recent now (item_id : Z) (item_type : string)
    (s1 s2 : M World unit) :
  sim s1 s2 ->
  sim (notify_unless_recent now item_id item_type s1)
      (notify_unless_recent now item_id item_type s2).
Proof.
  intros Hs. unfold notify_unless_recent.
  apply sim_bind; [apply sim_was_sent_recently|].
  intros [|]; simpl; [apply sim_ret|].
  apply sim_bind; [exact Hs | intros _; apply sim_mark].
Qed.

Lemma sim_send_planning env env' db plan (elapsed_minutes : Q) :
  sim (_send_planning_notification env db plan elapsed_minutes)
      (_send_planning_notification env' db plan elapsed_minutes).
Proof.
  unfold _send_planning_notification.
  apply sim_bind.
  - unfold project_name. destruct (project_of db _); [apply sim_ret | apply sim_raise].
  - intros project. destruct (Qlt_bool elapsed_minutes (inject_Z 1));
      eapply sim_one_call; apply send_then_unit_one_call.
Qed.

Lemma sim_send_session env env' db (s : Session.t) (overtime : Q) :
  sim (_send_session_notification env db s overtime)
      (_send_session_notification env' db s overtime).
Proof.
  unfold _send_session_notification.
  destruct (Qlt_bool overtime (inject_Z 1));
    eapply sim_one_call; apply send_then_unit_one_call.
Qed.

Lemma sim_check_plan env env' db now plan :
  sim (check_plan env db now plan) (check_plan env' db now plan).
Proof.
  unfold check_plan.
  destruct (session_from_plan db plan); [apply sim_ret|].
  destruct (any_recent_session db plan); [apply sim_ret|].
  destruct (planning_should_notify db now plan); [|apply sim_ret].
  apply sim_notify_unless_recent, sim_send_planning.
Qed.

Lemma sim_for_each {A} (b1 b2 : A -> M World unit) (l : list A) :
  (forall x, sim (b1 x) (b2 x)) -> sim (for_each b1 l) (for_each b2 l).
Proof.
  intros Hb. induction l as [|x l IH]; simpl; [apply sim_ret|].
  apply sim_bind; [apply Hb | intros _; exact IH].
Qed.

Lemma sim_check_session env env' db now :
  sim (_check_session_notifications env db now)
      (_check_session_notifications env' db now).
Proof.
  unfold _check_session_notifications.
  destruct (SessionService.get_active_session db) as [s|]; [|apply sim_ret].
  destruct (Session.notification_disabled s); [apply sim_ret|].
  destruct (Qlt_bool _ _); [apply sim_ret|].
  apply sim_bind.
  - destruct (Qlt_bool _ _); [apply sim_ret|].
    apply sim_bind; [|intros r; apply sim_ret].
    unfold py_mod. destruct (_ =? 0); [apply sim_raise | apply sim_ret].
  - intros [|]; [|apply sim_ret].
    apply sim_notify_unless_recent, sim_send_session.
Qed.

Lemma sim_check_notifications env env' db now :
  sim (check_notifications env db now) (check_notifications env' db now).
Proof.
  unfold check_notifications, _check_planning_notifications.
  apply sim_bind.
  - apply sim_for_each. intros plan. apply sim_check_plan.
  - intros _. apply sim_check_session.
Qed.

Lemma sim_polling_loop env env' ticks :
  sim (polling_loop env ticks) (polling_loop env' ticks).
Proof.
  induction ticks as [|[db now] ticks IH]; simpl; [apply sim_ret|].
  apply sim_bind; [|intros _; exact IH].
  apply sim_try_except; [apply sim_check_notifications|].
  intros e. apply sim_print.
Qed.

Lemma sim_start env env' ticks : sim (start env ticks) (start env' ticks).
Proof.
  unfold start. apply sim_bind; [apply sim_print|].
  intros _. apply sim_polling_loop.
Qed.

(** A tick inside the loop's [try] never lets an exception through. *)
Lemma guarded_tick_returns env db now w :
  fst (try_except (check_notifications env db now)
         (fun e => print ("Error in notification worker: " +:+ exn_str e)) w)
  = Ok tt.
Proof.
  unfold try_except.
  destruct (check_notifications env db now w) as [[[]|e] w']; reflexivity.
Qed.

(** One turn of the loop: the tick, its exception printed if it raised
    one, and then the turns that follow. *)
Lemma polling_loop_turn env db now ticks w :
  polling_loop env ((db, now) :: ticks) w
  = polling_loop env ticks
      (match check_notifications env db now w with
       | (Ok _, w') => w'
       | (Raise e, w') =>
           mkWorld (_notification_cache w') (calls w') (wire w')
             (stdout w' ++ ["Error in notification worker: " +:+ exn_str e])
       end).
Proof.
  simpl. unfold mbind, M_bind, bind, try_except, print, modify.
  destruct (check_notifications env db now w) as [[[]|e] w']; reflexivity.
Qed.

Lemma polling_loop_returns env ticks w : fst (polling_loop env ticks w) = Ok tt.
Proof.
  revert w. induction ticks as [|[db now] ticks IH]; intros w;
    [reflexivity|].
  rewrite polling_loop_turn. apply IH.
Qed.

Lemma polling_loop_app env ticks ticks' w :
  polling_loop env (ticks ++ ticks') w
  = polling_loop env ticks' (snd (polling_loop env ticks w)).
Proof.
  revert w. induction ticks as [|[db now] ticks IH]; intros w;
    [reflexivity|].
  rewrite <- app_comm_cons, !polling_loop_turn. apply IH.
Qed.

Lemma start_loop env ticks w :
  start env ticks w
  = polling_loop env ticks
      (mkWorld (_notification_cache w) (calls w) (wire w)
               (stdout w ++ ["Notification worker started"])).
Proof. reflexivity. Qed.

End Containment.

(** * Further properties *)

(** ** The session service: starting, failing, stopping *)

Section SessionServiceMore.
Import SessionService.

Ltac run_requests :=
  unfold start_session, stop_session, add_note, add_time,
    toggle_notifications, commit, add, mbind, M_bind, bind, get, modify,
    mret, M_ret, ret, raise, get_active_session, get_by_id in *;
  simpl in *.

Lemma find_app_none {A} (f : A -> bool) (l l' : list A) :
  List.find f l = None -> List.find f (l ++ l') = List.find f l'.
Proof.
  induction l as [|a l IH]; simpl; [reflexivity|].
  destruct (f a); [discriminate | exact IH].
Qed.

Lemma query_tags_elem db (tag_ids : list Z) (t : Z) :
  t ∈ query_tags db tag_ids <-> t ∈ tag_ids /\ t ∈ tag_table db.
Proof.
  unfold query_tags. rewrite list_elem_of_In, List.filter_In,
    bool_decide_eq_true, <- list_elem_of_In. tauto.
Qed.

(** X1.  With no session active, [start_session] succeeds: it appends
    one row, which becomes the active session, under the next free id;
    the row starts at the given [start_time] or else now, is open,
    carries the request's project, plan and planned duration, has no
    notes, score or tasks and has notifications enabled.  Its tags are
    the requested tag ids that exist in the tag table; unknown ids are
    dropped without an error. *)
Theorem start_session_creates db now (d : SessionStart.t) :
  get_active_session db = None ->
  exists s db',
    start_session now d db = (Ok s, db')
    /\ sessions db' = sessions db ++ [s]
    /\ next_session_id db' = next_session_id db + 1
    /\ get_active_session db' = Some s
    /\ Session.id s = next_session_id db
    /\ Session.start_time s = default now (SessionStart.start_time d)
    /\ Session.end_time s = None
    /\ Session.project_id s = SessionStart.project_id d
    /\ Session.planning_id s = SessionStart.planning_id d
    /\ Session.planned_duration s = SessionStart.planned_duration d
    /\ Session.notes s = None
    /\ Session.satisfaction_score s = None
    /\ Session.tasks_done s = None
    /\ Session.notification_disabled s = false
    /\ (forall t, t ∈ Session.tags s
                  <-> t ∈ SessionStart.tag_ids d /\ t ∈ tag_table db).
Proof.
  intros Hnone. run_requests. rewrite Hnone.
  eexists _, _. split; [reflexivity|]. simpl.
  split; [reflexivity|]. split; [reflexivity|].
  split; [now rewrite find_app_none|].
  split; [reflexivity|].
  split; [now destruct (SessionStart.start_time d)|].
  repeat (split; [reflexivity|]).
  intros t. destruct (SessionStart.tag_ids d) as [|t0 ts] eqn:E.
  - split; [intros H; inversion H | intros [H _]; inversion H].
  - apply query_tags_elem.
Qed.

Lemma start_session_creates_witness :
  get_active_session Examples.db_empty = None /\
  exists s db',
    start_session (Examples.at_ 9 0) Examples.start_garden Examples.db_empty
    = (Ok s, db')
    /\ Session.tags s = [2].
Proof.
  split; [reflexivity|].
  destruct (start_session_creates Examples.db_empty (Examples.at_ 9 0)
              Examples.start_garden eq_refl) as (s & db' & H & _).
  exists s, db'. split; [exact H|].
  injection H as <- _. reflexivity.
Defined.

(** The loop over the review items raises exactly when an item is a
    null [tag_ids], and then with SQLAlchemy's [ArgumentError]. *)
Lemma apply_review_null db items s :
  match apply_review db items s with
  | Ok _ => has_null_tag_ids (Some items) = false
  | Raise e => has_null_tag_ids (Some items) = true
               /\ exists msg, e = ArgumentError msg
  end.
Proof.
  revert s. induction items as [|it items IH]; intros s; simpl;
    [reflexivity|].
  destruct it as [v|v|v|[v|]]; simpl; try apply IH.
  split; [reflexivity | eauto].
Qed.

Lemma handle_raise_inv now (q : request) db e :
  fst (handle now q db) = Raise e ->
  snd (handle now q db) = db
  /\ ((exists msg, e = ValueError msg /\ service_message msg)
      \/ (exists msg i rv, e = ArgumentError msg /\ q = Stop i rv
                           /\ has_null_tag_ids rv = true)).
Proof.
  unfold service_message.
  destruct q as [d | i rv | i n | i m | i]; simpl; run_requests.
  - destruct (List.find Session.is_active (sessions db)); simpl;
      [|discriminate].
    intros [= <-]. eauto 7.
  - destruct (List.find _ (sessions db)) as [r|]; simpl;
      [|intros [= <-]; eauto 7].
    destruct (Session.end_time r); simpl; [intros [= <-]; eauto 7|].
    destruct rv as [[|it items]|]; simpl; try discriminate.
    change (match apply_review_item db (Session.set_end_time (Some now) r) it
            with
            | Ok session' => apply_review db items session'
            | Raise e => Raise e
            end)
      with (apply_review db (it :: items) (Session.set_end_time (Some now) r)).
    pose proof (apply_review_null db (it :: items)
                  (Session.set_end_time (Some now) r)) as Hnull.
    destruct (apply_review db (it :: items)
                (Session.set_end_time (Some now) r)) as [s'|e']; simpl;
      [discriminate|].
    intros [= <-]. destruct Hnull as (Hn & msg & ->).
    split; [reflexivity|]. right. eauto 7.
  - destruct (List.find _ (sessions db)) as [r|]; simpl;
      [discriminate | intros [= <-]; eauto 7].
  - destruct (List.find _ (sessions db)) as [r|]; simpl;
      [discriminate | intros [= <-]; eauto 7].
  - destruct (List.find _ (sessions db)) as [r|]; simpl;
      [discriminate | intros [= <-]; eauto 7].
Qed.

(** X2.  A request that raises leaves the store exactly as it was.
    What it raises is a [ValueError] with one of the three messages of
    the service, or, only for a stop whose review data carry an
    explicit null for [tag_ids], the [ArgumentError] of the tag
    query. *)
Theorem failed_request_changes_nothing now (q : request) db e :
  fst (handle now q db) = Raise e ->
  snd (handle now q db) = db
  /\ ((exists msg, e = ValueError msg /\ service_message msg)
      \/ (exists msg i rv, e = ArgumentError msg /\ q = Stop i rv
                           /\ has_null_tag_ids rv = true)).
Proof. apply handle_raise_inv. Qed.

Lemma failed_request_changes_nothing_witness :
  let q := Stop 1 (Some [notes_item (Some "done"); tag_ids_item None]) in
  (exists msg, fst (handle (Examples.at_ 9 41) q Examples.db_active)
               = Raise (ArgumentError msg))
  /\ snd (handle (Examples.at_ 9 41) q Examples.db_active) = Examples.db_active
  /\ fst (handle (Examples.at_ 9 41) (Stop 1 None) Examples.db_stopped)
     = Raise (ValueError "Session already stopped")
  /\ snd (handle (Examples.at_ 9 41) (Stop 1 None) Examples.db_stopped)
     = Examples.db_stopped.
Proof.
  intros q.
  split; [eexists; reflexivity|].
  split.
  - eapply (failed_request_changes_nothing (Examples.at_ 9 41) q
              Examples.db_active). reflexivity.
  - split; [reflexivity|].
    apply (failed_request_changes_nothing (Examples.at_ 9 41) (Stop 1 None)
             Examples.db_stopped (ValueError "Session already stopped")
             eq_refl).
Defined.

Lemma observed_stays_stopped reqs db (sid : Z) x e :
  get_by_id db sid = Some x ->
  Session.end_time x = Some e ->
  Forall (fun d => exists x', get_by_id d sid = Some x'
                              /\ Session.end_time x' = Some e)
         (observed reqs db).
Proof.
  revert db x. induction reqs as [|[now q] reqs IH]; intros db x Hx He; simpl.
  - constructor; [eauto | constructor].
  - constructor; [eauto|].
    destruct (table_step_stopped _ _ sid x e (handle_table_step now q db) Hx He)
      as (x' & Hx' & He' & _).
    now apply IH with (x := x').
Qed.

(** X3.  Once a session is stopped it stays stopped with the same end
    time whatever requests follow, and every later attempt to stop it,
    with or without review data, raises "Session already stopped" and
    changes nothing: the service never reopens or re-ends a session. *)
Theorem stopped_session_stays_stopped reqs db (session_id : Z) x e :
  get_by_id db session_id = Some x ->
  Session.end_time x = Some e ->
  Forall (fun d =>
            Session.end_time <$> get_by_id d session_id = Some (Some e)
            /\ forall now review_data,
                 stop_session now session_id review_data d
                 = (Raise (ValueError "Session already stopped"), d))
         (observed reqs db).
Proof.
  intros Hx He.
  eapply Forall_impl; [apply (observed_stays_stopped reqs db session_id x e Hx He)|].
  intros d (x' & Hx' & He'). simpl. split; [now rewrite Hx', <- He'|].
  intros now rv. unfold stop_session, mbind, M_bind, bind, get.
  now rewrite Hx', He'.
Qed.

Lemma stopped_session_stays_stopped_witness :
  get_by_id Examples.db_stopped 1 = Some Examples.s_stopped /\
  Session.end_time Examples.s_stopped = Some (Examples.at_ 9 2) /\
  Forall (fun d =>
            Session.end_time <$> get_by_id d 1 = Some (Some (Examples.at_ 9 2))
            /\ forall now review_data,
                 stop_session now 1 review_data d
                 = (Raise (ValueError "Session already stopped"), d))
         (observed Examples.a_morning Examples.db_stopped).
Proof.
  split; [reflexivity|]. split; [reflexivity|].
  apply (stopped_session_stays_stopped Examples.a_morning Examples.db_stopped 1
           Examples.s_stopped (Examples.at_ 9 2) eq_refl eq_refl).
Defined.

End SessionServiceMore.

(** ** The session service: how requests compose *)

Section SessionServiceCompose.
Import SessionService.

Implicit Types (db : DB) (s r : Session.t) (rows : list Session.t).

Lemma update_row_twice rows s1 s2 :
  Session.id s1 = Session.id s2 ->
  update_row s2 (update_row s1 rows) = update_row s2 rows.
Proof.
  intros Hid. induction rows as [|x rows IH]; simpl; [reflexivity|].
  rewrite <- Hid.
  destruct (Session.id x =? Session.id s1) eqn:E; simpl.
  - now rewrite Hid, Z.eqb_refl.
  - rewrite <- Hid, E. now rewrite IH.
Qed.

Lemma update_row_same rows s :
  List.find (fun x => Session.id x =? Session.id s) rows = Some s ->
  update_row s rows = rows.
Proof.
  induction rows as [|x rows IH]; simpl; [reflexivity|].
  destruct (Session.id x =? Session.id s); [now intros [= ->]|].
  intros H. now rewrite IH.
Qed.

Lemma set_sessions_same db : set_sessions (sessions db) db = db.
Proof. now destruct db. Qed.

Lemma set_sessions_twice rows rows' db :
  set_sessions rows (set_sessions rows' db) = set_sessions rows db.
Proof. reflexivity. Qed.

(** The store after a request on a session that exists: its row
    written back. *)
Lemma toggle_notifications_found db (sid : Z) s :
  get_by_id db sid = Some s ->
  toggle_notifications sid db
  = (Ok (Session.set_notification_disabled
           (negb (Session.notification_disabled s)) s),
     set_sessions
       (update_row (Session.set_notification_disabled
                      (negb (Session.notification_disabled s)) s)
                   (sessions db)) db).
Proof.
  intros H. unfold toggle_notifications, mbind, M_bind, bind, get.
  now rewrite H.
Qed.

Lemma add_time_found db (sid m : Z) s :
  get_by_id db sid = Some s ->
  add_time sid m db
  = (Ok (Session.set_planned_duration (Session.planned_duration s + m) s),
     set_sessions
       (update_row (Session.set_planned_duration
                      (Session.planned_duration s + m) s)
                   (sessions db)) db).
Proof.
  intros H. unfold add_time, mbind, M_bind, bind, get. now rewrite H.
Qed.

Lemma get_by_id_written db (sid : Z) s s' :
  get_by_id db sid = Some s ->
  Session.id s' = Session.id s ->
  get_by_id (set_sessions (update_row s' (sessions db)) db) sid = Some s'.
Proof.
  intros H Hid. unfold get_by_id in *. simpl. rewrite find_update_row.
  rewrite Hid, (find_id_eq _ _ _ H), Z.eqb_refl. now rewrite H.
Qed.

(** X4.  Toggling the notifications of a session twice gives back the
    session and the whole store as they were: the first call answers
    with the flag flipped, the second with the original row. *)
Theorem toggle_notifications_twice db (session_id : Z) s :
  get_by_id db session_id = Some s ->
  let first := toggle_notifications session_id db in
  let second := toggle_notifications session_id (snd first) in
  (Session.notification_disabled <$>
     (match fst first with Ok s' => Some s' | Raise _ => None end))
  = Some (negb (Session.notification_disabled s))
  /\ fst second = Ok s
  /\ snd second = db.
Proof.
  intros Hs first second.
  set (s1 := Session.set_notification_disabled
               (negb (Session.notification_disabled s)) s).
  assert (H1 : first = (Ok s1, set_sessions (update_row s1 (sessions db)) db))
    by (apply toggle_notifications_found, Hs).
  assert (Hs1 : get_by_id (snd first) session_id = Some s1)
    by (rewrite H1; now apply get_by_id_written with (s := s)).
  assert (Hback : Session.set_notification_disabled
                    (negb (Session.notification_disabled s1)) s1 = s)
    by (destruct s; simpl; now rewrite negb_involutive).
  assert (H2 : second = (Ok s, db)).
  { unfold second. rewrite (toggle_notifications_found _ _ _ Hs1), Hback.
    rewrite H1. simpl. f_equal.
    rewrite update_row_twice by reflexivity.
    rewrite update_row_same by (now rewrite (find_id_eq _ _ _ Hs)).
    now destruct db. }
  rewrite H1, H2. now repeat split.
Qed.

Lemma toggle_notifications_twice_witness :
  get_by_id Examples.db_active 1 = Some Examples.s_active /\
  snd (toggle_notifications 1 (snd (toggle_notifications 1 Examples.db_active)))
  = Examples.db_active.
Proof.
  split; [reflexivity|].
  apply (toggle_notifications_twice Examples.db_active 1 Examples.s_active
           eq_refl).
Defined.

(** X5.  Added time accumulates: adding [a] and then [b] minutes to a
    session leaves the store that adding [a + b] at once leaves, and
    adding [a] and then [-a] minutes gives back the store as it was. *)
Theorem add_time_composes db (session_id a b : Z) s :
  get_by_id db session_id = Some s ->
  snd (add_time session_id b (snd (add_time session_id a db)))
  = snd (add_time session_id (a + b) db)
  /\ snd (add_time session_id (- a) (snd (add_time session_id a db))) = db.
Proof.
  intros Hs.
  assert (Hcomp : forall a b,
            snd (add_time session_id b (snd (add_time session_id a db)))
            = snd (add_time session_id (a + b) db)).
  { intros a' b'.
    rewrite (add_time_found _ _ a' _ Hs). simpl.
    erewrite add_time_found
      by (apply get_by_id_written with (s := s); [exact Hs | reflexivity]).
    rewrite (add_time_found _ _ (a' + b') _ Hs). simpl.
    rewrite update_row_twice by reflexivity.
    replace (Session.set_planned_duration
               (Session.planned_duration s + a' + b')
               (Session.set_planned_duration (Session.planned_duration s + a') s))
      with (Session.set_planned_duration
              (Session.planned_duration s + (a' + b')) s)
      by (unfold Session.set_planned_duration; simpl; f_equal; lia).
    reflexivity. }
  split; [apply Hcomp|].
  rewrite Hcomp, Z.add_opp_diag_r.
  rewrite (add_time_found _ _ 0 _ Hs). simpl.
  assert (Hsame : Session.set_planned_duration
                    (Session.planned_duration s + 0) s = s)
    by (destruct s; unfold Session.set_planned_duration; simpl; f_equal; lia).
  rewrite Hsame, update_row_same by (now rewrite (find_id_eq _ _ _ Hs)).
  apply set_sessions_same.
Qed.

Lemma add_time_composes_witness :
  get_by_id Examples.db_active 1 = Some Examples.s_active /\
  snd (add_time 1 15 (snd (add_time 1 15 Examples.db_active)))
  = snd (add_time 1 30 Examples.db_active).
Proof.
  split; [reflexivity|].
  apply (add_time_composes Examples.db_active 1 15 15 Examples.s_active eq_refl).
Defined.

(** X6.  [add_note] works on any session that exists, active or not.
    It keeps the text the notes had, puts one entry after it, on a new
    line when there was text before, made of the five-character time
    of day in brackets, a space and the note; no other column and no
    other row changes. *)
Theorem add_note_appends db now (session_id : Z) (note : string) s :
  get_by_id db session_id = Some s ->
  exists s' db' sep,
    add_note now session_id note db = (Ok s', db')
    /\ get_by_id db' session_id = Some s'
    /\ (forall other, other <> session_id ->
                      get_by_id db' other = get_by_id db other)
    /\ Session.notes s'
       = Some (notes_text s +:+ sep +:+
               "[" +:+ strftime_HM now +:+ "] " +:+ note)
    /\ sep = (if decide (notes_text s = EmptyString) then EmptyString else nl)
    /\ String.length (strftime_HM now) = 5%nat
    /\ Session.set_notes (Session.notes s) s' = s.
Proof.
  intros Hs.
  pose proof (find_id_eq _ _ _ Hs) as Hid.
  assert (Hother : forall s', Session.id s' = Session.id s ->
            forall other, other <> session_id ->
              get_by_id (set_sessions (update_row s' (sessions db)) db) other
              = get_by_id db other).
  { intros s' Hs' other Hne. unfold get_by_id. simpl.
    rewrite find_update_row, Hs', Hid.
    destruct (session_id =? other) eqn:E; [|reflexivity].
    apply Z.eqb_eq in E. congruence. }
  unfold add_note, mbind, M_bind, bind, get. rewrite Hs.
  unfold notes_text.
  destruct (Session.notes s) as [[|c old]|] eqn:En; simpl;
    [exists (Session.set_notes
               (Some ("[" +:+ strftime_HM now +:+ "] " +:+ note)) s)
    |exists (Session.set_notes
               (Some (String c old +:+ nl +:+
                      "[" +:+ strftime_HM now +:+ "] " +:+ note)) s)
    |exists (Session.set_notes
               (Some ("[" +:+ strftime_HM now +:+ "] " +:+ note)) s)];
    eexists _;
    [exists EmptyString | exists nl | exists EmptyString];
    (split; [reflexivity|]);
    (split; [now apply get_by_id_written with (s := s)|]);
    (split; [now apply Hother|]);
    (split; [reflexivity|]);
    (split; [reflexivity|]);
    (split; [reflexivity|]);
    destruct s; simpl in *; now rewrite En.
Qed.

Lemma add_note_appends_witness :
  get_by_id Examples.db_stopped 1 = Some Examples.s_stopped /\
  exists s' db',
    add_note (Examples.at_ 9 10) 1 "done" Examples.db_stopped = (Ok s', db')
    /\ Session.notes s'
       = Some ("[09:01] outline" +:+ nl +:+ "[09:10] done").
Proof.
  split; [reflexivity|].
  destruct (add_note_appends Examples.db_stopped (Examples.at_ 9 10) 1 "done"
              Examples.s_stopped eq_refl)
    as (s' & db' & sep & H & _ & _ & Hn & -> & _).
  exists s', db'. split; [exact H | exact Hn].
Defined.

End SessionServiceCompose.

(** ** The session service: queries and keys *)

Section SessionServiceQueries.
Import SessionService.

Implicit Types (db : DB) (s r : Session.t) (rows : list Session.t).

#[local] Instance started_not_before_trans : Transitive started_not_before.
Proof. intros a b c. unfold started_not_before. lia. Qed.

#[local] Instance started_not_before_total : Total started_not_before.
Proof. intros a b. unfold started_not_before. lia. Qed.

(** X7.  [get_recent] returns at most [limit] sessions, all of them
    stopped sessions of the table, the latest start first; when the
    table has no more than [limit] stopped sessions it returns every
    one of them. *)
Theorem get_recent_latest_first db (limit : nat) :
  (length (get_recent db limit) <= limit)%nat
  /\ Forall (fun s => s ∈ sessions db /\ Session.is_active s = false)
            (get_recent db limit)
  /\ StronglySorted started_not_before (get_recent db limit)
  /\ ((length (List.filter (fun s => negb (Session.is_active s)) (sessions db))
       <= limit)%nat ->
      get_recent db limit
      ≡ₚ List.filter (fun s => negb (Session.is_active s)) (sessions db)).
Proof.
  unfold get_recent.
  set (ended := List.filter (fun s => negb (Session.is_active s)) (sessions db)).
  set (sorted := merge_sort started_not_before ended).
  assert (Hperm : sorted ≡ₚ ended) by apply merge_sort_Permutation.
  split; [rewrite length_take; lia|].
  split.
  { apply Forall_forall. intros s Hs.
    apply subseteq_take in Hs. rewrite Hperm in Hs.
    apply list_elem_of_In, List.filter_In in Hs as [Hin Hact].
    split; [now apply list_elem_of_In | now apply negb_true_iff]. }
  split.
  { apply StronglySorted_app_1_l with (l2 := drop limit sorted).
    rewrite take_drop. apply StronglySorted_merge_sort; apply _. }
  intros Hlen. rewrite take_ge; [exact Hperm|].
  now rewrite Hperm.
Qed.

Lemma get_recent_latest_first_witness :
  (length (List.filter (fun s => negb (Session.is_active s))
                       (sessions Examples.db_stopped)) <= 20)%nat
  /\ get_recent Examples.db_stopped 20
     ≡ₚ List.filter (fun s => negb (Session.is_active s))
                    (sessions Examples.db_stopped).
Proof.
  split; [simpl; lia|].
  apply (get_recent_latest_first Examples.db_stopped 20). simpl. lia.
Defined.

(** The count of active rows after a row is written back. *)
Lemma active_count_written rows s r :
  List.find (fun x => Session.id x =? Session.id s) rows = Some r ->
  (active_count (update_row s rows) + (if Session.is_active r then 1 else 0)
   = active_count rows + (if Session.is_active s then 1 else 0))%nat.
Proof.
  unfold active_count.
  induction rows as [|x rows IH]; simpl; [discriminate|].
  destruct (Session.id x =? Session.id s) eqn:E.
  - intros [= ->]. simpl.
    destruct (Session.is_active s), (Session.is_active r); simpl; lia.
  - intros H. specialize (IH H). simpl.
    destruct (Session.is_active x); simpl; lia.
Qed.

(** What [stop_session] does on an open session that it finds. *)
Lemma stop_session_found db now i review_data r :
  get_by_id db i = Some r ->
  Session.end_time r = None ->
  stop_session now i review_data db
  = match match review_data with
          | Some (item :: items) =>
              apply_review db (item :: items)
                (Session.set_end_time (Some now) r)
          | _ => Ok (Session.set_end_time (Some now) r)
          end with
    | Ok s' => (Ok s', set_sessions (update_row s' (sessions db)) db)
    | Raise e => (Raise e, db)
    end.
Proof.
  intros Hr Hopen.
  unfold stop_session, mbind, M_bind, bind, get. rewrite Hr, Hopen. simpl.
  destruct review_data as [[|it items]|]; try reflexivity.
  change (match apply_review_item db (Session.set_end_time (Some now) r) it
          with
          | Ok session' => apply_review db items session'
          | Raise e => Raise e
          end)
    with (apply_review db (it :: items) (Session.set_end_time (Some now) r)).
  now destruct (apply_review db (it :: items)
                  (Session.set_end_time (Some now) r)).
Qed.

(** X8.  In a store with at most one active session, stopping the
    active session leaves no active session, and the next
    [start_session] succeeds and makes its new session the active one.
    The one exception is review data that carry an explicit null for
    [tag_ids]: then the stop raises the [ArgumentError] of the tag
    query before it commits, the store is unchanged and the session is
    still the active one, so the next [start_session] is refused. *)
Theorem stop_then_start db now now' review_data (d : SessionStart.t) s :
  (active_count (sessions db) <= 1)%nat ->
  get_active_session db = Some s ->
  get_by_id db (Session.id s) = Some s ->
  if has_null_tag_ids review_data
  then (exists msg, stop_session now (Session.id s) review_data db
                    = (Raise (ArgumentError msg), db))
       /\ start_session now' d db
          = (Raise (ValueError "Another session is already active"), db)
  else exists s1 db1,
         stop_session now (Session.id s) review_data db = (Ok s1, db1)
         /\ Session.end_time s1 = Some now
         /\ get_by_id db1 (Session.id s) = Some s1
         /\ get_active_session db1 = None
         /\ exists s2 db2,
              start_session now' d db1 = (Ok s2, db2)
              /\ get_active_session db2 = Some s2
              /\ sessions db2 = sessions db1 ++ [s2].
Proof.
  intros Hle Hact Hid.
  assert (Hopen : Session.end_time s = None).
  { apply List.find_some in Hact as [_ Ha]. unfold Session.is_active in Ha.
    now destruct (Session.end_time s). }
  rewrite (stop_session_found _ _ _ _ _ Hid Hopen).
  set (stopped := Session.set_end_time (Some now) s).
  assert (Hdone : forall s1,
    Session.id s1 = Session.id s -> Session.end_time s1 = Some now ->
    exists s1' db1,
      (Ok s1, set_sessions (update_row s1 (sessions db)) db) = (Ok s1', db1)
      /\ Session.end_time s1' = Some now
      /\ get_by_id db1 (Session.id s) = Some s1'
      /\ get_active_session db1 = None
      /\ exists s2 db2,
           start_session now' d db1 = (Ok s2, db2)
           /\ get_active_session db2 = Some s2
           /\ sessions db2 = sessions db1 ++ [s2]).
  { intros s1 Hi He.
    assert (Hnone : get_active_session
                      (set_sessions (update_row s1 (sessions db)) db) = None).
    { unfold get_active_session, get_by_id in *. simpl.
      apply find_active_none.
      rewrite <- Hi in Hid.
      pose proof (active_count_written _ _ _ Hid) as Hc.
      assert (Ha : Session.is_active s1 = false)
        by (unfold Session.is_active; now rewrite He).
      assert (Ha' : Session.is_active s = true)
        by (unfold Session.is_active; now rewrite Hopen).
      rewrite Ha, Ha' in Hc. lia. }
    eexists _, _. split; [reflexivity|]. split; [exact He|].
    split.
    { rewrite <- Hi. unfold get_by_id in *. simpl.
      rewrite find_update_row, Z.eqb_refl. rewrite Hi. now rewrite Hid. }
    split; [exact Hnone|].
    unfold start_session, mbind, M_bind, bind, get. rewrite Hnone.
    eexists _, _. split; [reflexivity|]. simpl.
    split; [|reflexivity].
    unfold get_active_session in *. simpl. now rewrite find_app_none. }
  destruct review_data as [[|it items]|];
    try (simpl has_null_tag_ids; cbv iota; apply Hdone; reflexivity).
  pose proof (apply_review_null db (it :: items) stopped) as Hnull.
  destruct (apply_review db (it :: items) stopped) as [s1|e] eqn:E.
  - rewrite Hnull.
    destruct (apply_review_frame _ _ _ _ E) as (Hi & _ & He).
    apply Hdone; [exact Hi | exact He].
  - destruct Hnull as (-> & msg & ->).
    split; [eauto|].
    unfold start_session, mbind, M_bind, bind, get, raise. now rewrite Hact.
Qed.

Lemma stop_then_start_witness :
  ((active_count (sessions Examples.db_active) <= 1)%nat
   /\ get_active_session Examples.db_active = Some Examples.s_active
   /\ get_by_id Examples.db_active 1 = Some Examples.s_active)
  /\ (exists s1 db1,
        stop_session (Examples.at_ 9 35) 1
          (Some [notes_item (Some "done"); tag_ids_item (Some [2])])
          Examples.db_active = (Ok s1, db1)
        /\ get_active_session db1 = None)
  /\ (exists msg,
        stop_session (Examples.at_ 9 35) 1
          (Some [notes_item (Some "done"); tag_ids_item None])
          Examples.db_active = (Raise (ArgumentError msg), Examples.db_active)).
Proof.
  assert (H : (active_count (sessions Examples.db_active) <= 1)%nat
              /\ get_active_session Examples.db_active = Some Examples.s_active
              /\ get_by_id Examples.db_active 1 = Some Examples.s_active)
    by (split; [unfold active_count; simpl; lia | split; reflexivity]).
  split; [exact H|]. destruct H as (H1 & H2 & H3).
  split.
  - destruct (stop_then_start Examples.db_active (Examples.at_ 9 35)
                (Examples.at_ 9 40)
                (Some [notes_item (Some "done"); tag_ids_item (Some [2])])
                Examples.start_garden Examples.s_active H1 H2 H3)
      as (s1 & db1 & Hs & _ & _ & Hn & _).
    exists s1, db1. split; [exact Hs | exact Hn].
  - destruct (stop_then_start Examples.db_active (Examples.at_ 9 35)
                (Examples.at_ 9 40)
                (Some [notes_item (Some "done"); tag_ids_item None])
                Examples.start_garden Examples.s_active H1 H2 H3)
      as (Hs & _).
    exact Hs.
Defined.

Lemma update_row_ids rows s :
  Session.id <$> update_row s rows = Session.id <$> rows.
Proof.
  induction rows as [|x rows IH]; [reflexivity|].
  cbn [update_row]. destruct (Session.id x =? Session.id s) eqn:E.
  - rewrite !fmap_cons. apply Z.eqb_eq in E. now rewrite E.
  - rewrite !fmap_cons. now rewrite IH.
Qed.

Lemma update_row_elem rows s x :
  x ∈ update_row s rows -> x = s \/ x ∈ rows.
Proof.
  induction rows as [|y rows IH]; simpl; [intros H; inversion H|].
  destruct (Session.id y =? Session.id s).
  - intros H. apply elem_of_cons in H as [->|H]; [now left|].
    right. now apply elem_of_cons; right.
  - intros H. apply elem_of_cons in H as [->|H].
    + right. apply elem_of_cons. now left.
    + destruct (IH H) as [->|Hin]; [now left|].
      right. apply elem_of_cons. now right.
Qed.

(** What a request does to the store. *)
Lemma handle_shape now (q : request) db :
  snd (handle now q db) = db
  \/ (exists s r, get_by_id db (Session.id s) = Some r
                  /\ snd (handle now q db)
                     = set_sessions (update_row s (sessions db)) db)
  \/ (exists s, Session.id s = next_session_id db
                /\ snd (handle now q db)
                   = mkDB (sessions db ++ [s]) (next_session_id db + 1)
                          (tag_table db) (projects db) (planning db)
                          (settings db)).
Proof.
  destruct q as [d | i rv | i n | i m | i]; simpl;
    unfold start_session, stop_session, add_note, add_time,
      toggle_notifications, commit, add, mbind, M_bind, bind, get, modify,
      mret, M_ret, ret, raise, get_active_session; simpl.
  - destruct (List.find Session.is_active (sessions db)); simpl; [now left|].
    right. right. eexists. split; [|reflexivity]. reflexivity.
  - destruct (get_by_id db i) as [r|] eqn:E; simpl; [|now left].
    destruct (Session.end_time r); simpl; [now left|].
    pose proof (find_id_eq _ _ _ E) as Hid.
    destruct rv as [[|it items]|]; simpl;
      try (right; left; eexists _, r; split; [|reflexivity];
           simpl; now rewrite Hid).
    change (match apply_review_item db (Session.set_end_time (Some now) r) it
            with
            | Ok session' => apply_review db items session'
            | Raise e => Raise e
            end)
      with (apply_review db (it :: items) (Session.set_end_time (Some now) r)).
    destruct (apply_review db (it :: items)
                (Session.set_end_time (Some now) r)) as [s'|e] eqn:Er;
      simpl; [|now left].
    destruct (apply_review_frame _ _ _ _ Er) as (Hi & _).
    right. left. eexists _, r. split; [|reflexivity].
    rewrite Hi. simpl. now rewrite Hid.
  - destruct (get_by_id db i) as [r|] eqn:E; simpl; [|now left].
    right. left. eexists _, r. split; [|reflexivity].
    pose proof (find_id_eq _ _ _ E) as Hid.
    destruct (Session.notes r) as [[|c old]|]; simpl; now rewrite Hid.
  - destruct (get_by_id db i) as [r|] eqn:E; simpl; [|now left].
    right. left. eexists _, r. split; [|reflexivity].
    simpl. now rewrite (find_id_eq _ _ _ E).
  - destruct (get_by_id db i) as [r|] eqn:E; simpl; [|now left].
    right. left. eexists _, r. split; [|reflexivity].
    simpl. now rewrite (find_id_eq _ _ _ E).
Qed.

Lemma handle_well_formed now (q : request) db :
  well_formed db -> well_formed (snd (handle now q db)).
Proof.
  intros [Hnd Hlt].
  destruct (handle_shape now q db) as [-> | [(s & r & Hr & ->) | (s & Hs & ->)]].
  - now split.
  - split; simpl.
    + now rewrite update_row_ids.
    + apply Forall_forall. intros x Hx.
      rewrite Forall_forall in Hlt.
      apply update_row_elem in Hx as [-> | Hx]; [|now apply Hlt].
      pose proof (find_id_eq _ _ _ Hr) as <-.
      apply Hlt, list_elem_of_In.
      now apply List.find_some in Hr as [Hr _].
  - split; simpl.
    + rewrite fmap_app. apply NoDup_app. split; [exact Hnd|].
      split; [|apply NoDup_singleton].
      intros i Hi Hi'. simpl in Hi'. apply list_elem_of_singleton in Hi'.
      apply list_elem_of_fmap in Hi as (x & -> & Hx).
      rewrite Forall_forall in Hlt. specialize (Hlt x Hx). lia.
    + apply Forall_app. split.
      * eapply Forall_impl; [exact Hlt|]. simpl. intros; lia.
      * constructor; [lia | constructor].
Qed.

Lemma unique_id_lookup rows s :
  NoDup (Session.id <$> rows) -> s ∈ rows ->
  List.find (fun x => Session.id x =? Session.id s) rows = Some s.
Proof.
  induction rows as [|x rows IH]; simpl; [intros _ H; inversion H|].
  intros Hnd Hin. apply NoDup_cons in Hnd as [Hx Hnd].
  apply elem_of_cons in Hin as [-> | Hin]; [now rewrite Z.eqb_refl|].
  destruct (Session.id x =? Session.id s) eqn:E; [|now apply IH].
  apply Z.eqb_eq in E. exfalso. apply Hx. rewrite E.
  apply list_elem_of_fmap. eauto.
Qed.

(** X9.  The requests keep the primary key of the sessions table:
    starting from a store whose ids are distinct and below the next
    id, every store observed while requests are served has distinct
    ids below its next id, and looking a session up by its id gives
    back that very row. *)
Theorem primary_key_kept reqs db :
  well_formed db ->
  Forall (fun d => well_formed d
                   /\ forall s, s ∈ sessions d ->
                                get_by_id d (Session.id s) = Some s)
         (observed reqs db).
Proof.
  revert db. induction reqs as [|[now q] reqs IH]; intros db Hwf; simpl.
  - constructor; [|constructor].
    split; [exact Hwf|]. intros s Hs. now apply unique_id_lookup; [apply Hwf|].
  - constructor.
    + split; [exact Hwf|]. intros s Hs. now apply unique_id_lookup; [apply Hwf|].
    + apply IH. now apply handle_well_formed.
Qed.

Lemma primary_key_kept_witness :
  well_formed Examples.db_empty
  /\ Forall (fun d => well_formed d
                      /\ forall s, s ∈ sessions d ->
                                   get_by_id d (Session.id s) = Some s)
            (observed Examples.a_morning Examples.db_empty).
Proof.
  assert (Hwf : well_formed Examples.db_empty)
    by (split; [apply NoDup_nil_2 | constructor]).
  split; [exact Hwf|].
  apply (primary_key_kept Examples.a_morning Examples.db_empty Hwf).
Defined.

End SessionServiceQueries.

(** ** The API routes *)

Section Routes.
Import SessionsApi.

(** The request a call of a route hands to the service. *)
Lemma serve_handle now (c : call) :
  exists code q,
    serve now c = guarded code (SessionService.handle now q)
    /\ code = match c with post_start _ _ _ _ => 201 | _ => 200 end
    /\ forall i rv, q = SessionService.Stop i rv -> c = post_stop i rv.
Proof.
  destruct c as [p d pl t | i r | i n | i m | i].
  - exists 201, (SessionService.Start (SessionStart.mk p d pl t None)).
    now repeat split.
  - exists 200, (SessionService.Stop i r).
    repeat split. now intros ? ? [= -> ->].
  - exists 200, (SessionService.AddNote i n). now repeat split.
  - exists 200, (SessionService.AddTime i (default 15 m)). now repeat split.
  - exists 200, (SessionService.ToggleNotifications i). now repeat split.
Qed.

(** X10.  A writing route answers in one of three ways.  It returns
    the session, with status 201 for a start and 200 for the other
    routes.  Or the service raised a [ValueError], and the route raises
    an [HTTPException] with status 400 whose detail is one of the three
    messages of the service.  Or, only for a stop whose review carries
    an explicit null for [tag_ids], the [ArgumentError] of the tag
    query passes the [except ValueError] clause and the answer is
    status 500.  In the last two cases the store is as it was before
    the call.  A route never answers without a session. *)
Theorem route_answers now (c : call) db :
  match serve now c db with
  | (Response code (Some s), db') =>
      code = match c with post_start _ _ _ _ => 201 | _ => 200 end
  | (Response _ None, _) => False
  | (HTTPException code detail, db') =>
      db' = db
      /\ ((code = 400 /\ service_message detail)
          \/ (code = 500
              /\ exists i rv, c = post_stop i rv
                              /\ has_null_tag_ids rv = true))
  end.
Proof.
  destruct (serve_handle now c) as (code & q & -> & -> & Hstop).
  unfold guarded.
  pose proof (handle_raise_inv now q db) as Hraise.
  destruct (SessionService.handle now q db) as [[s|e] db']; simpl in *;
    [reflexivity|].
  destruct (Hraise e eq_refl)
    as (-> & [(msg & -> & Hmsg) | (msg & i & rv & -> & Hq & Hnull)]).
  - split; [reflexivity|]. left. now split.
  - split; [reflexivity|]. right. split; [reflexivity|].
    exists i, rv. split; [now apply Hstop | exact Hnull].
Qed.

Lemma route_answers_witness :
  let c := post_stop 1 (Some [notes_item (Some "done"); tag_ids_item None]) in
  serve (Examples.at_ 9 41) c Examples.db_active
  = (HTTPException 500 "Internal Server Error", Examples.db_active)
  /\ ((500 = 400 /\ service_message "Internal Server Error")
      \/ (500 = 500
          /\ exists i rv, c = post_stop i rv
                          /\ has_null_tag_ids rv = true)).
Proof.
  intros c. split; [reflexivity|].
  exact (proj2 (route_answers (Examples.at_ 9 41) c Examples.db_active)).
Defined.

End Routes.

(** ** The timers of the web interface *)

Section Timers.
Import SessionStore.

(** X11.  For an active session the four getters fit together at every
    instant: the remaining and the overtime minutes are never negative
    and never both positive, their difference is the planned duration
    minus the elapsed minutes, and [isOvertime] holds exactly when the
    overtime minutes are positive, in which case nothing remains. *)
Theorem timers_consistent (now : Z) (a : active_session) :
  let elapsed := elapsedMinutes now (Some a) in
  let remaining := remainingMinutes now (Some a) in
  let overtime := overtimeMinutes now (Some a) in
  0 <= remaining
  /\ 0 <= overtime
  /\ (remaining = 0 \/ overtime = 0)
  /\ remaining - overtime = planned_duration a - elapsed
  /\ (isOvertime now (Some a) = true <-> 0 < overtime)
  /\ (isOvertime now (Some a) = true -> remaining = 0).
Proof.
  unfold remainingMinutes, overtimeMinutes, isOvertime. simpl.
  set (e := elapsedMinutes now (Some a)).
  rewrite Z.ltb_lt. lia.
Qed.

(** X12.  As the clock advances the elapsed minutes never decrease, so
    the remaining minutes never increase and the overtime minutes
    never decrease; from the start time on the elapsed minutes are not
    negative. *)
Theorem timers_monotone (now now' : Z) (a : active_session) :
  now <= now' ->
  elapsedMinutes now (Some a) <= elapsedMinutes now' (Some a)
  /\ remainingMinutes now' (Some a) <= remainingMinutes now (Some a)
  /\ overtimeMinutes now (Some a) <= overtimeMinutes now' (Some a)
  /\ (start_time a <= now -> 0 <= elapsedMinutes now (Some a)).
Proof.
  intros Hle.
  assert (He : elapsedMinutes now (Some a) <= elapsedMinutes now' (Some a)).
  { rewrite !elapsedMinutes_floor. apply Z.div_le_mono; lia. }
  unfold remainingMinutes, overtimeMinutes.
  split; [exact He|]. split; [lia|]. split; [lia|].
  intros Hs. rewrite elapsedMinutes_floor. apply Z.div_pos; lia.
Qed.

Lemma timers_monotone_witness :
  let a := SessionStore.mk 36000000 60 in
  36000000 + 59 * 60000 <= 36000000 + 61 * 60000
  /\ remainingMinutes (36000000 + 61 * 60000) (Some a)
     <= remainingMinutes (36000000 + 59 * 60000) (Some a).
Proof.
  split; [lia|].
  destruct (timers_monotone (36000000 + 59 * 60000) (36000000 + 61 * 60000)
              (SessionStore.mk 36000000 60)) as (_ & H & _); [lia | exact H].
Defined.

(** X13.  [formatDuration] shows a duration of [h] hours and [m]
    minutes ([0 <= m < 60]) as its minutes alone when there is no full
    hour and as hours and minutes otherwise; for the negative of such
    a duration the hours are dropped and only the negated minutes are
    shown. *)
Theorem formatDuration_hours_minutes (h m : Z) :
  0 <= h ->
  0 <= m < 60 ->
  SessionBanner.formatDuration (60 * h + m)
  = (if h =? 0 then str m +:+ "m"
     else str h +:+ "h " +:+ str m +:+ "m")
  /\ SessionBanner.formatDuration (- (60 * h + m)) = str (- m) +:+ "m".
Proof.
  intros Hh Hm. unfold SessionBanner.formatDuration.
  assert (Hdiv : (60 * h + m) / 60 = h)
    by (symmetry; apply Z.div_unique with (r := m); lia).
  assert (Hrem : Z.rem (60 * h + m) 60 = m).
  { rewrite Z.rem_mod_nonneg by lia.
    symmetry. apply Z.mod_unique with (q := h); lia. }
  split.
  - rewrite Hdiv, Hrem.
    destruct (Z.eqb_spec h 0) as [-> | Hne]; [reflexivity|].
    assert (Hpos : (0 <? h) = true) by (apply Z.ltb_lt; lia).
    now rewrite Hpos.
  - rewrite Z.rem_opp_l, Hrem by lia.
    assert (Hneg : (0 <? - (60 * h + m) / 60) = false).
    { apply Z.ltb_ge.
      assert (- (60 * h + m) / 60 < 1); [|lia].
      apply Z.div_lt_upper_bound; lia. }
    now rewrite Hneg.
Qed.

Lemma formatDuration_hours_minutes_witness :
  0 <= 1 /\ 0 <= 30 < 60
  /\ SessionBanner.formatDuration 90 = "1h 30m"
  /\ SessionBanner.formatDuration (-90) = "-30m".
Proof.
  split; [lia|]. split; [lia|].
  destruct (formatDuration_hours_minutes 1 30) as [H1 H2]; [lia | lia |].
  split; [exact H1 | exact H2].
Defined.

End Timers.

(** ** Deliveries *)

Section Deliveries.
Import NotificationService.

(** X14.  [send_notification] answers [True] exactly when the temporary
    file was written and the daemon accepted the connection; then the
    path of the file goes over the socket and nothing is printed.  When
    the connection fails, or the file cannot be written, it answers
    [False], nothing goes over the socket and one line naming the
    failure is printed.  In every case the call is recorded and the
    cache is left alone. *)
Theorem send_notification_outcome env (t m u : string) (icon : option string)
    (timeout : Z) (w : World) :
  let n := length (calls w) in
  exists b w',
    send_notification env t m u icon timeout w = (Ok b, w')
    /\ calls w' = calls w ++ [mkNotification t m u]
    /\ _notification_cache w' = _notification_cache w
    /\ match write_temp env n, connect env n with
       | Written path, None =>
           b = true /\ wire w' = wire w ++ [path] /\ stdout w' = stdout w
       | Written _, Some e =>
           b = false /\ wire w' = wire w
           /\ stdout w' = stdout w ++
                ["Failed to connect to notification service: " +:+ exn_str e]
       | WriteRaises e, _ =>
           b = false /\ wire w' = wire w
           /\ stdout w' = stdout w ++
                ["Failed to send notification: " +:+ exn_str e]
       end.
Proof.
  unfold send_notification, _write_temp_config, _send_to_service, print,
    try_except, mbind, M_bind, bind, get, modify, mret, M_ret, ret, raise.
  simpl.
  destruct (write_temp env (length (calls w))) as [path | e]; simpl;
    [destruct (connect env (length (calls w))) as [e|]; simpl |];
    eexists _, _; (split; [reflexivity|]); simpl; now repeat split.
Qed.

End Deliveries.

(** ** The planning check *)

Section PlanningCheck.
Import SessionService NotificationService NotificationWorker.

Lemma filter_none {A} (f : A -> bool) (l : list A) :
  (forall x, x ∈ l -> f x = false) -> List.filter f l = [].
Proof.
  induction l as [|a l IH]; simpl; [reflexivity|].
  intros H. rewrite (H a) by apply list_elem_of_here.
  apply IH. intros x Hx. apply H. now apply list_elem_of_further.
Qed.

(** X15.  A tick notifies only plans whose scheduled start lies in the
    last five minutes: when every plan of the table is scheduled in
    the future or more than five minutes ago, the planning check makes
    no call, stamps nothing and raises nothing. *)
Theorem plans_outside_window_ignored env db now (w : World) :
  (forall p, p ∈ planning db ->
             Planning.scheduled_start p < now - minutes 5
             \/ now < Planning.scheduled_start p) ->
  _check_planning_notifications env db now w = (Ok tt, w).
Proof.
  intros Hout. unfold _check_planning_notifications, planning_list.
  rewrite filter_none; [reflexivity|].
  intros p Hp. apply andb_false_iff.
  destruct (Hout p Hp); [left; apply Z.leb_gt | right; apply Z.leb_gt]; lia.
Qed.

Lemma plans_outside_window_ignored_witness :
  (forall p, p ∈ planning Examples.db_stopped ->
             Planning.scheduled_start p < Examples.at_ 9 6 - minutes 5
             \/ Examples.at_ 9 6 < Planning.scheduled_start p)
  /\ _check_planning_notifications Examples.env_up Examples.db_stopped
       (Examples.at_ 9 6) Examples.w0 = (Ok tt, Examples.w0).
Proof.
  assert (H : forall p, p ∈ planning Examples.db_stopped ->
             Planning.scheduled_start p < Examples.at_ 9 6 - minutes 5
             \/ Examples.at_ 9 6 < Planning.scheduled_start p).
  { intros p Hp. apply list_elem_of_singleton in Hp as ->. left.
    vm_compute. reflexivity. }
  split; [exact H|].
  apply (plans_outside_window_ignored Examples.env_up Examples.db_stopped
           (Examples.at_ 9 6) Examples.w0 H).
Defined.

(** The whole minutes the worker counts from [start] to a later
    [now]. *)
Lemma int_of_minutes_between (now start : Z) :
  start <= now ->
  int_of (minutes_between now start) = (now - start) / microseconds_per_minute.
Proof.
  intros Hle.
  unfold int_of, minutes_between, total_seconds, Qdiv, Qmult, Qinv, inject_Z,
    microseconds_per_minute, microseconds_per_second. simpl.
  change (Z.pos (1000000 * 60)) with 60000000.
  change (60 * 1000000) with 60000000.
  rewrite Z.mul_1_r. apply Z.quot_div_nonneg; lia.
Qed.

(** X16.  Within the five-minute window a reminder can come only from
    an interval of at most five minutes: for a plan the tick looks at
    whose interval is larger, as is the default of 10, the plan is due
    for a notification exactly during the first minute after its
    scheduled start, and never again. *)
Theorem reminders_need_short_interval db now plan :
  plan ∈ planning_list db now ->
  5 < planning_interval db plan ->
  planning_should_notify db now plan
  = (now - Planning.scheduled_start plan <? minutes 1).
Proof.
  intros Hin Hint.
  apply list_elem_of_In, List.filter_In in Hin as [_ Hwin].
  apply andb_true_iff in Hwin as [Hlo Hhi].
  apply Z.leb_le in Hlo, Hhi.
  unfold planning_should_notify.
  rewrite minutes_between_lt, int_of_minutes_between by exact Hhi.
  set (d := now - Planning.scheduled_start plan) in *.
  assert (Hd : 0 <= d <= minutes 5) by (unfold d; lia).
  unfold minutes, microseconds_per_minute, microseconds_per_second in *.
  change (60 * 1000000) with 60000000 in *.
  pose proof (Z.div_mod d 60000000 ltac:(lia)) as Hdm.
  pose proof (Z.mod_pos_bound d 60000000 ltac:(lia)) as Hr.
  destruct (Z.ltb_spec (d / 60000000) 1) as [Hlt | Hge].
  - symmetry. apply Z.ltb_lt. lia.
  - assert (Hk : 1 <= d / 60000000 <= 5) by lia.
    rewrite Z.mod_small by lia.
    transitivity false; [apply Z.eqb_neq; lia|].
    symmetry. apply Z.ltb_ge. lia.
Qed.

Lemma reminders_need_short_interval_witness :
  Examples.plan_thesis ∈ planning_list Examples.db_default_3 (Examples.at_ 14 5)
  /\ 5 < planning_interval Examples.db_default_3 Examples.plan_thesis
  /\ planning_should_notify Examples.db_default_3 (Examples.at_ 14 5)
       Examples.plan_thesis = false.
Proof.
  assert (Hin : Examples.plan_thesis
                ∈ planning_list Examples.db_default_3 (Examples.at_ 14 5))
    by apply list_elem_of_here.
  assert (Hint : 5 < planning_interval Examples.db_default_3 Examples.plan_thesis)
    by (vm_compute; reflexivity).
  split; [exact Hin|]. split; [exact Hint|].
  apply (reminders_need_short_interval Examples.db_default_3 (Examples.at_ 14 5)
           Examples.plan_thesis Hin Hint).
Defined.

(** X17.  A plan from which a session was started is never notified
    again, whether that session is still running or has ended. *)
Theorem plan_with_session_skipped env db now plan s (w : World) :
  s ∈ sessions db ->
  Session.planning_id s = Some (Planning.id plan) ->
  check_plan env db now plan w = (Ok tt, w).
Proof.
  intros Hin Hplan. unfold check_plan, session_from_plan.
  destruct (find_some_of_elem
              (fun x => match Session.planning_id x with
                        | Some p => p =? Planning.id plan
                        | None => false
                        end) _ _ Hin) as [y Hy].
  { rewrite Hplan. apply Z.eqb_refl. }
  now rewrite Hy.
Qed.

Lemma plan_with_session_skipped_witness :
  let s := Session.mk 5 (Some 2) (Examples.at_ 8 0) (Some (Examples.at_ 8 30))
             30 (Some 1) None None None false [] in
  let db := mkDB [s] 6 [] [Examples.garden] [Examples.plan_garden]
              Examples.no_settings in
  s ∈ sessions db
  /\ Session.planning_id s = Some (Planning.id Examples.plan_garden)
  /\ check_plan Examples.env_up db (Examples.at_ 9 0) Examples.plan_garden
       Examples.w0 = (Ok tt, Examples.w0).
Proof.
  intros s db.
  split; [apply list_elem_of_here|]. split; [reflexivity|].
  apply (plan_with_session_skipped Examples.env_up db (Examples.at_ 9 0)
           Examples.plan_garden s Examples.w0);
    [apply list_elem_of_here | reflexivity].
Defined.

(** X18.  What a planning notification says.  For a plan whose project
    exists the service is called once: the urgency is critical exactly
    for a plan of critical priority and normal otherwise; in the first
    minute the title is "Scheduled Work", afterwards "Planning
    Reminder"; the cache is left alone.  For a plan whose project row
    is missing an [AttributeError] is raised before any call. *)
Theorem planning_notification_content env db plan (elapsed_minutes : Q)
    (w : World) :
  match project_of db (Some (Planning.project_id plan)) with
  | Some p =>
      exists body w',
        _send_planning_notification env db plan elapsed_minutes w = (Ok tt, w')
        /\ calls w'
           = calls w ++
             [mkNotification
                (if Qlt_bool elapsed_minutes (inject_Z 1)
                 then "Scheduled Work" else "Planning Reminder")
                body
                (match Planning.priority plan with
                 | critical => "critical"
                 | _ => "normal"
                 end)]
        /\ _notification_cache w' = _notification_cache w
  | None =>
      _send_planning_notification env db plan elapsed_minutes w
      = (Raise (AttributeError "'NoneType' object has no attribute 'name'"), w)
  end.
Proof.
  unfold _send_planning_notification, project_name.
  destruct (project_of db (Some (Planning.project_id plan))) as [p|];
    [|reflexivity].
  unfold mbind at 1, M_bind at 1, bind at 1. simpl.
  destruct (Qlt_bool elapsed_minutes (inject_Z 1));
    match goal with
    | |- context [send_notification env ?t ?m ?u None 5000] =>
        destruct (send_then_unit_one_call env t m u None 5000 w)
          as (w' & Hs & Hc & Hk)
    end;
    eexists _, w'; (split; [exact Hs|]); (split; [exact Hc | exact Hk]).
Qed.

End PlanningCheck.

(** ** The session check and the cache *)

Section SessionCheck.
Import SessionService NotificationService NotificationWorker.

(** The worker's comparison of the overtime with a whole number of
    minutes, on the floor of the elapsed minutes. *)
Lemma overtime_lt (now start p n : Z) :
  Qlt_bool (minutes_between now start - inject_Z p) (inject_Z n)
  = ((now - start) / microseconds_per_minute <? p + n).
Proof.
  unfold Qlt_bool, Qle_bool, Qminus, Qplus, Qopp, minutes_between,
    total_seconds, Qdiv, Qmult, Qinv, inject_Z, microseconds_per_minute,
    microseconds_per_second.
  simpl.
  change (Z.pos (1000000 * 60 * 1)) with 60000000.
  change (Z.pos (1000000 * 60)) with 60000000.
  change (60 * 1000000) with 60000000.
  pose proof (Z.div_mod (now - start) 60000000 ltac:(lia)) as Hdm.
  pose proof (Z.mod_pos_bound (now - start) 60000000 ltac:(lia)) as Hr.
  destruct (Z.ltb_spec ((now - start) / 60000000) (p + n)) as [Hlt | Hge].
  - apply negb_true_iff, Z.leb_gt. lia.
  - apply negb_false_iff, Z.leb_le. lia.
Qed.

(** X19.  A default interval of 0 in the settings makes the session
    check fail: for an active session with notifications enabled whose
    interval resolves to 0 (which only the setting can cause, a
    project's 0 being passed over), every tick from one minute of
    overtime on raises [ZeroDivisionError] before any call or stamp. *)
Theorem zero_interval_raises env db now (s : Session.t) (w : World) :
  get_active_session db = Some s ->
  Session.notification_disabled s = false ->
  session_interval db s = 0 ->
  Session.start_time s + minutes (Session.planned_duration s + 1) <= now ->
  _check_session_notifications env db now w = (Raise ZeroDivisionError, w)
  /\ settings db !! "notification_interval_default" = Some 0.
Proof.
  intros Hact Hflag Hint Hlate. split.
  - unfold _check_session_notifications. rewrite Hact, Hflag.
    assert (Hk : Session.planned_duration s + 1
                 <= (now - Session.start_time s) / microseconds_per_minute).
    { apply Z.div_le_lower_bound; [reflexivity|].
      unfold minutes in Hlate. lia. }
    rewrite minutes_between_lt.
    replace (_ <? Session.planned_duration s) with false
      by (symmetry; apply Z.ltb_ge; lia).
    unfold mbind at 1, M_bind at 1, bind at 1.
    rewrite overtime_lt.
    replace (_ <? Session.planned_duration s + 1) with false
      by (symmetry; apply Z.ltb_ge; lia).
    unfold py_mod. rewrite Hint. reflexivity.
  - unfold session_interval in Hint.
    destruct (settings db !! "notification_interval_default") as [v|] eqn:Ev.
    + destruct (project_of db (Session.project_id s)) as [p|];
        [destruct (Project.notification_interval p) as [i|];
         [destruct (Z.eqb_spec i 0)|]|]; congruence.
    + destruct (project_of db (Session.project_id s)) as [p|];
        [destruct (Project.notification_interval p) as [i|];
         [destruct (Z.eqb_spec i 0)|]|]; congruence.
Qed.

Lemma zero_interval_raises_witness :
  let db := mkDB [Examples.s_active] 2 [] [Examples.thesis] []
              {[ "notification_interval_default" := 0 ]} in
  get_active_session db = Some Examples.s_active
  /\ Session.notification_disabled Examples.s_active = false
  /\ session_interval db Examples.s_active = 0
  /\ Session.start_time Examples.s_active
     + minutes (Session.planned_duration Examples.s_active + 1)
     <= Examples.at_ 9 40
  /\ _check_session_notifications Examples.env_up db (Examples.at_ 9 40)
       Examples.w0 = (Raise ZeroDivisionError, Examples.w0).
Proof.
  intros db.
  assert (Hlate : Session.start_time Examples.s_active
                  + minutes (Session.planned_duration Examples.s_active + 1)
                  <= Examples.at_ 9 40) by (vm_compute; discriminate).
  split; [reflexivity|]. split; [reflexivity|]. split; [reflexivity|].
  split; [exact Hlate|].
  apply (zero_interval_raises Examples.env_up db (Examples.at_ 9 40)
           Examples.s_active Examples.w0 eq_refl eq_refl eq_refl Hlate).
Defined.

Lemma send_session_call env db (s : Session.t) (overtime : Q) :
  exists body,
    one_call (_send_session_notification env db s overtime)
      (mkNotification
         ((if Qlt_bool overtime (inject_Z 1)
           then "Session Complete: " else "Still Working: ")
          +:+ match project_of db (Session.project_id s) with
              | Some p => Project.name p
              | None => "Session"
              end)
         body "normal").
Proof.
  unfold _send_session_notification.
  destruct (Qlt_bool overtime (inject_Z 1));
    eexists; apply send_then_unit_one_call.
Qed.

(** X20.  What the session check does for an active session with
    notifications enabled.  When the session is due and its key was not
    stamped in the last 60 seconds, the check makes exactly one call, of
    normal urgency, titled "Session Complete: " in the first minute of
    overtime and "Still Working: " afterwards, followed by the
    project's name (or "Session" without a project), and stamps the key
    with the time of the tick.  Otherwise it makes no call and leaves
    the cache as it is. *)
Theorem session_check_exact env db now (s : Session.t) (w : World) :
  get_active_session db = Some s ->
  Session.notification_disabled s = false ->
  let w' := after (_check_session_notifications env db now) w in
  let overtime :=
    (minutes_between now (Session.start_time s)
     - inject_Z (Session.planned_duration s))%Q in
  if session_due db now s
     && negb (sent_recently w now (Session.id s) "session")
  then
    (exists body,
       calls w'
       = calls w ++
         [mkNotification
            ((if Qlt_bool overtime (inject_Z 1)
              then "Session Complete: " else "Still Working: ")
             +:+ match project_of db (Session.project_id s) with
                 | Some p => Project.name p
                 | None => "Session"
                 end)
            body "normal"])
    /\ _notification_cache w'
       = <[cache_key (Session.id s) "session" := now]> (_notification_cache w)
  else calls w' = calls w /\ _notification_cache w' = _notification_cache w.
Proof.
  intros Hact Hflag w' overtime. unfold w', after.
  unfold _check_session_notifications, session_due.
  rewrite Hact, Hflag. fold overtime.
  destruct (Qlt_bool (minutes_between now (Session.start_time s))
                     (inject_Z (Session.planned_duration s))); simpl;
    [now split|].
  destruct (send_session_call env db s overtime) as [body Hone].
  unfold mbind, M_bind, bind.
  destruct (Qlt_bool overtime (inject_Z 1)) eqn:E1; simpl.
  - destruct (notify_unless_recent_spec now (Session.id s) "session" _ _ w Hone)
      as (w1 & -> & Hw1).
    destruct (sent_recently w now (Session.id s) "session"); simpl.
    + now rewrite Hw1.
    + split; [exists body|]; apply Hw1.
  - unfold py_mod.
    destruct (session_interval db s =? 0); simpl; [now split|].
    destruct (int_of overtime mod session_interval db s =? 0); simpl;
      [|now split].
    destruct (notify_unless_recent_spec now (Session.id s) "session" _ _ w Hone)
      as (w1 & -> & Hw1).
    destruct (sent_recently w now (Session.id s) "session"); simpl.
    + now rewrite Hw1.
    + split; [exists body|]; apply Hw1.
Qed.

Lemma session_check_exact_witness :
  get_active_session Examples.db_active = Some Examples.s_active
  /\ Session.notification_disabled Examples.s_active = false
  /\ title <$> calls (after (_check_session_notifications Examples.env_down
                               Examples.db_active (Examples.at_ 9 40))
                            Examples.w0)
     = ["Still Working: Thesis"].
Proof.
  split; [reflexivity|]. split; [reflexivity|].
  pose proof (session_check_exact Examples.env_down Examples.db_active
                (Examples.at_ 9 40) Examples.s_active Examples.w0
                eq_refl eq_refl) as H.
  destruct H as [[body Hc] _]. rewrite Hc. reflexivity.
Defined.

Lemma str_inj (a b : Z) : str a = str b -> a = b.
Proof.
  unfold str. intros H. apply DecimalZ.to_int_inj.
  assert (Hn : forall z, Z.to_int z <> Decimal.Pos Decimal.Nil
                         /\ Z.to_int z <> Decimal.Neg Decimal.Nil).
  { intros [|p|p]; simpl; split; try discriminate; intros [= E];
      now apply Unsigned.to_uint_nonnil in E. }
  apply (f_equal NilZero.int_of_string) in H.
  rewrite !NilZero.isi in H by apply Hn. congruence.
Qed.

Lemma append_inj_l (p a b : string) : p +:+ a = p +:+ b -> a = b.
Proof. induction p as [|c p IH]; simpl; [tauto|]. intros [= H]. auto. Qed.

Lemma cache_key_inj (i j : Z) (t t' : string) :
  worker_kind t -> worker_kind t' ->
  cache_key i t = cache_key j t' -> i = j /\ t = t'.
Proof.
  unfold cache_key.
  intros [-> | ->] [-> | ->] H; try discriminate;
    (split; [|reflexivity]); apply str_inj;
    eapply append_inj_l, append_inj_l; exact H.
Qed.

(** X21.  The stamps of different entities do not interfere: the keys
    of two different (id, kind) pairs of the worker are different, so a
    dispatch attempt for one session or plan, whether it sends or is
    skipped, never changes whether another one counts as recently
    notified. *)
Theorem stamps_do_not_interfere env now now' (i j : Z) (t t' : string)
    (tl m u : string) (w : World) :
  worker_kind t ->
  worker_kind t' ->
  i <> j \/ t <> t' ->
  cache_key i t <> cache_key j t'
  /\ sent_recently
       (after (notify_unless_recent now i t
                 (send_notification env tl m u None 5000;; mret tt)) w)
       now' j t'
     = sent_recently w now' j t'.
Proof.
  intros Ht Ht' Hne.
  assert (Hkey : cache_key i t <> cache_key j t').
  { intros H. apply cache_key_inj in H as [-> ->]; [tauto | tauto | tauto]. }
  split; [exact Hkey|].
  destruct (notify_unless_recent_spec now i t _ _ w
              (send_then_unit_one_call env tl m u None 5000))
    as (w1 & Hrun & Hw1).
  unfold after. rewrite Hrun. simpl.
  destruct (sent_recently w now i t); [now rewrite Hw1|].
  destruct Hw1 as [_ Hk]. unfold sent_recently.
  now rewrite Hk, lookup_insert_ne.
Qed.

Lemma stamps_do_not_interfere_witness :
  worker_kind "planning" /\ worker_kind "session"
  /\ (1 <> 1 \/ "planning" <> "session")
  /\ cache_key 1 "planning" <> cache_key 1 "session".
Proof.
  assert (H1 : worker_kind "planning") by (now left).
  assert (H2 : worker_kind "session") by (now right).
  assert (H3 : 1 <> 1 \/ "planning" <> "session") by (right; discriminate).
  split; [exact H1|]. split; [exact H2|]. split; [exact H3|].
  apply (stamps_do_not_interfere Examples.env_up 0 0 1 1 "planning" "session"
           "" "" "" Examples.w0 H1 H2 H3).
Defined.

End SessionCheck.

(** ** The first version of the session check *)

Section FirstWorker.
Import SessionService NotificationService.

(** The test [x % n < 1] on a float that is not negative and a positive
    integer is the test [int(x) % n == 0]. *)
Lemma float_mod_lt_1 (x : Q) (n : Z) :
  (0 <= x)%Q -> 0 < n ->
  Qlt_bool (float_mod x n) (inject_Z 1) = (int_of x mod n =? 0).
Proof.
  destruct x as [a b]. intros Hx Hn.
  assert (Ha : 0 <= a) by (unfold Qle in Hx; simpl in Hx; lia).
  destruct n as [|p|p]; try lia.
  unfold Qlt_bool, Qle_bool, float_mod, int_of, Qminus, Qplus, Qopp, Qdiv,
    Qmult, Qinv, Qfloor, inject_Z. simpl.
  rewrite !Pos2Z.inj_mul, !Z.mul_1_r.
  rewrite Z.quot_div_nonneg by lia.
  set (B := Z.pos b) in *. set (P := Z.pos p) in *.
  assert (HB : 0 < B) by (unfold B; lia).
  assert (HP : 0 < P) by (unfold P; lia).
  rewrite <- Z.div_div by lia.
  set (f := a / B).
  pose proof (Z.div_mod a B ltac:(lia)) as Hdm1.
  pose proof (Z.mod_pos_bound a B ltac:(lia)) as Hr1.
  pose proof (Z.div_mod f P ltac:(lia)) as Hdm2.
  pose proof (Z.mod_pos_bound f P ltac:(lia)) as Hr2.
  fold f in Hdm1.
  set (q := f / P) in *. set (m := f mod P) in *. set (r := a mod B) in *.
  replace (a + - (P * q) * B) with (B * m + r)
    by (rewrite Hdm1, Hdm2 at 1; ring).
  destruct (Z.eqb_spec m 0) as [-> | Hm].
  - apply negb_true_iff, Z.leb_gt. lia.
  - apply negb_false_iff, Z.leb_le. nia.
Qed.

(** The overtime once the planned minutes have elapsed: not negative,
    and its whole minutes are the whole elapsed minutes less the
    planned ones. *)
Lemma overtime_whole_minutes (now start p : Z) :
  p <= (now - start) / microseconds_per_minute ->
  (0 <= minutes_between now start - inject_Z p)%Q
  /\ int_of (minutes_between now start - inject_Z p)
     = (now - start) / microseconds_per_minute - p.
Proof.
  intros Hp.
  unfold int_of, Qle, Qminus, Qplus, Qopp, minutes_between, total_seconds,
    Qdiv, Qmult, Qinv, inject_Z, microseconds_per_minute,
    microseconds_per_second in *.
  simpl.
  change (Z.pos (1000000 * 60 * 1)) with 60000000.
  change (Z.pos (1000000 * 60)) with 60000000.
  change (60 * 1000000) with 60000000 in *.
  pose proof (Z.div_mod (now - start) 60000000 ltac:(lia)) as Hdm.
  pose proof (Z.mod_pos_bound (now - start) 60000000 ltac:(lia)) as Hr.
  split; [lia|].
  rewrite Z.quot_div_nonneg by lia.
  replace ((now - start) * 1 * 1 + - p * 60000000)
    with ((now - start) + (- p) * 60000000) by lia.
  rewrite Z.div_add by lia. lia.
Qed.

Lemma first_send_session_one_call env db (s : Session.t) (overtime : Q) :
  exists n,
    one_call (NotificationWorker0._send_session_notification env db s overtime) n.
Proof.
  unfold NotificationWorker0._send_session_notification.
  eexists. apply send_then_unit_one_call.
Qed.

(** X22.  The first version of the session check, with a positive
    interval: for an active session with notifications enabled it
    makes one call at every tick at which the planned minutes have
    elapsed and the whole minutes of overtime are a multiple of the
    interval, and none otherwise; it never stamps the cache, so nothing
    keeps two ticks within the same minute from both sending.  Its
    float test [overtime % interval < 1] picks the same ticks as the
    later version's test whenever the two resolve the same interval. *)
Theorem first_session_check_ticks env db now (s : Session.t) (w : World) :
  get_active_session db = Some s ->
  Session.notification_disabled s = false ->
  0 < NotificationWorker0.session_interval db s ->
  let w' := after (NotificationWorker0._check_session_notifications env db now) w in
  let elapsed := (now - Session.start_time s) / microseconds_per_minute in
  let sends :=
    (Session.planned_duration s <=? elapsed)
    && ((elapsed - Session.planned_duration s)
        mod NotificationWorker0.session_interval db s =? 0) in
  _notification_cache w' = _notification_cache w
  /\ (if sends then exists n, calls w' = calls w ++ [n]
      else calls w' = calls w)
  /\ (NotificationWorker0.session_interval db s
      = NotificationWorker.session_interval db s ->
      sends = session_due db now s).
Proof.
  intros Hact Hflag Hpos w' elapsed sends.
  set (p := Session.planned_duration s) in *.
  set (n := NotificationWorker0.session_interval db s) in *.
  assert (Hle : Qle_bool (inject_Z p)
                  (minutes_between now (Session.start_time s))
                = (p <=? elapsed)).
  { pose proof (minutes_between_lt now (Session.start_time s) p) as H.
    unfold Qlt_bool in H. apply (f_equal negb) in H.
    rewrite negb_involutive in H. rewrite H. fold elapsed.
    destruct (Z.ltb_spec elapsed p), (Z.leb_spec p elapsed); simpl;
      try reflexivity; lia. }
  assert (Hrun : _notification_cache w' = _notification_cache w
                 /\ if sends then exists c, calls w' = calls w ++ [c]
                    else calls w' = calls w).
  { unfold w', after, NotificationWorker0._check_session_notifications.
    rewrite Hact, Hflag. fold p n. rewrite Hle. unfold sends.
    destruct (Z.leb_spec p elapsed) as [Hp | Hp]; simpl; [|now split].
    destruct (overtime_whole_minutes now (Session.start_time s) p Hp)
      as [Hnn Hint].
    rewrite float_mod_lt_1 by assumption. rewrite Hint. fold elapsed.
    destruct ((elapsed - p) mod n =? 0); simpl; [|now split].
    destruct (first_send_session_one_call env db s
                (minutes_between now (Session.start_time s) - inject_Z p))
      as [c Hone].
    destruct (Hone w) as (w1 & -> & Hc & Hk). simpl. split; [exact Hk | eauto]. }
  split; [apply Hrun|]. split; [apply Hrun|].
  intros Hsame. unfold sends, session_due. fold p. rewrite <- Hsame. fold n.
  rewrite minutes_between_lt, overtime_lt. fold elapsed.
  destruct (Z.leb_spec p elapsed) as [Hp | Hp];
    destruct (Z.ltb_spec elapsed p) as [Hp' | Hp']; try lia; simpl;
    try reflexivity.
  destruct (overtime_whole_minutes now (Session.start_time s) p Hp)
    as [_ Hint].
  rewrite Hint. fold elapsed.
  replace (n =? 0) with false by (symmetry; apply Z.eqb_neq; lia). simpl.
  destruct (Z.ltb_spec elapsed (p + 1)) as [Hone | Hmore]; simpl;
    [|reflexivity].
  replace (elapsed - p) with 0 by lia. now rewrite Z.mod_0_l by lia.
Qed.

Lemma first_session_check_ticks_witness :
  get_active_session Examples.db_active = Some Examples.s_active
  /\ Session.notification_disabled Examples.s_active = false
  /\ 0 < NotificationWorker0.session_interval Examples.db_active Examples.s_active
  /\ title <$> calls (after (NotificationWorker0._check_session_notifications
                               Examples.env_up Examples.db_active
                               (Examples.at_ 9 40)) Examples.w0)
     = ["Session: Thesis"].
Proof.
  split; [reflexivity|]. split; [reflexivity|]. split; [reflexivity|].
  destruct (first_session_check_ticks Examples.env_up Examples.db_active
              (Examples.at_ 9 40) Examples.s_active Examples.w0
              eq_refl eq_refl eq_refl) as (_ & [c Hc] & _).
  reflexivity.
Defined.

End FirstWorker.

(** ** The planning check, plan by plan *)

Section PlanningExact.
Import NotificationService NotificationWorker.

Lemma send_planning_one_call env db plan (p : Project.t) (elapsed_minutes : Q) :
  project_of db (Some (Planning.project_id plan)) = Some p ->
  exists n, one_call (_send_planning_notification env db plan elapsed_minutes) n.
Proof.
  intros Hp. unfold _send_planning_notification, project_name. rewrite Hp.
  destruct (Qlt_bool elapsed_minutes (inject_Z 1)); eexists; intros w;
    unfold mbind at 1, M_bind at 1, bind at 1; simpl;
    apply send_then_unit_one_call.
Qed.

Lemma existsb_find {A} (f g : A -> bool) (l : list A) :
  (forall x, f x = g x) ->
  existsb g l = match List.find f l with Some _ => true | None => false end.
Proof.
  intros Hfg. induction l as [|x l IH]; simpl; [reflexivity|].
  rewrite <- Hfg. now destruct (f x).
Qed.

Lemma plan_started_find db plan :
  plan_started db plan
  = match session_from_plan db plan with Some _ => true | None => false end.
Proof.
  apply existsb_find. intros s.
  destruct (Session.planning_id s) as [i|].
  - destruct (Z.eqb_spec i (Planning.id plan)) as [-> | Hne].
    + symmetry. now apply bool_decide_eq_true.
    + symmetry. apply bool_decide_eq_false. now intros [= ?].
  - symmetry. now apply bool_decide_eq_false.
Qed.

Lemma work_in_progress_find db plan :
  work_in_progress db plan
  = match any_recent_session db plan with Some _ => true | None => false end.
Proof.
  apply existsb_find. intros s. unfold Session.is_active.
  destruct (Z.leb_spec (Planning.scheduled_start plan) (Session.start_time s)),
    (Session.end_time s); simpl; symmetry;
    try (apply bool_decide_eq_true; now split);
    apply bool_decide_eq_false; intros [? ?]; try discriminate; lia.
Qed.

Lemma plan_interval_eq db plan :
  planning_interval db plan = plan_interval db plan.
Proof.
  unfold planning_interval, plan_interval.
  destruct (project_of db _) as [p|]; [|reflexivity].
  destruct (Project.notification_interval p) as [i|]; [|reflexivity].
  destruct (Z.eqb_spec i 0) as [-> | Hne].
  - now rewrite bool_decide_eq_true_2.
  - now rewrite bool_decide_eq_false_2.
Qed.

Lemma planning_should_notify_due db now plan :
  planning_should_notify db now plan = plan_due db now plan.
Proof.
  unfold planning_should_notify, plan_due.
  rewrite minutes_between_lt, plan_interval_eq.
  destruct (Z.ltb_spec ((now - Planning.scheduled_start plan)
                        / microseconds_per_minute) 1) as [Hlt | Hge];
    [reflexivity|].
  simpl. rewrite int_of_minutes_between; [reflexivity|].
  destruct (Z.le_gt_cases (Planning.scheduled_start plan) now) as [Hle | Hgt];
    [exact Hle|].
  assert ((now - Planning.scheduled_start plan) / microseconds_per_minute < 0);
    [|lia].
  apply Z.div_lt_upper_bound; unfold microseconds_per_minute,
    microseconds_per_second; lia.
Qed.

(** One plan of the loop: the check returns, and makes its one call and
    its stamp exactly for a plan that is ready. *)
Lemma check_plan_effect env db now plan (p : Project.t) (w : World) :
  project_of db (Some (Planning.project_id plan)) = Some p ->
  exists w',
    check_plan env db now plan w = (Ok tt, w')
    /\ if plan_ready db now w plan
       then (exists n, calls w' = calls w ++ [n])
            /\ _notification_cache w'
               = <[cache_key (Planning.id plan) "planning" := now]>
                   (_notification_cache w)
       else calls w' = calls w
            /\ _notification_cache w' = _notification_cache w.
Proof.
  intros Hp. unfold plan_ready, check_plan.
  rewrite plan_started_find, work_in_progress_find,
    <- planning_should_notify_due.
  destruct (session_from_plan db plan); [now exists w|].
  destruct (any_recent_session db plan); [now exists w|].
  destruct (planning_should_notify db now plan); simpl; [|now exists w].
  destruct (send_planning_one_call env db plan p
              (minutes_between now (Planning.scheduled_start plan)) Hp)
    as [n Hone].
  destruct (notify_unless_recent_spec now (Planning.id plan) "planning" _ _ w Hone)
    as (w1 & -> & Hw1).
  exists w1. split; [reflexivity|].
  destruct (sent_recently w now (Planning.id plan) "planning"); simpl.
  - now rewrite Hw1.
  - split; [exists n|]; apply Hw1.
Qed.

(** X23.  What the planning check does for one plan whose project
    exists.  It returns, and it makes exactly one call and stamps the
    plan's key with the time of the tick when all of this holds: no
    session of the table has the plan as its [planning_id]; no session
    that started at or after the scheduled start is still open; less
    than one whole minute has passed since the scheduled start, or the
    whole minutes passed are a multiple of the project's interval (10
    when the project has none or has 0); and the key was not stamped
    in the last 60 seconds.  In every other case it makes no call and
    leaves the cache as it is. *)
Theorem planning_check_exact env db now plan (p : Project.t) (w : World) :
  project_of db (Some (Planning.project_id plan)) = Some p ->
  let w' := after (check_plan env db now plan) w in
  let whole :=
    (now - Planning.scheduled_start plan) / microseconds_per_minute in
  let interval :=
    match Project.notification_interval p with
    | Some i => if bool_decide (i = 0) then 10 else i
    | None => 10
    end in
  fst (check_plan env db now plan w) = Ok tt
  /\ if negb (plan_started db plan)
        && negb (work_in_progress db plan)
        && ((whole <? 1) || (whole mod interval =? 0))
        && negb (sent_recently w now (Planning.id plan) "planning")
     then (exists n, calls w' = calls w ++ [n])
          /\ _notification_cache w'
             = <[cache_key (Planning.id plan) "planning" := now]>
                 (_notification_cache w)
     else calls w' = calls w /\ _notification_cache w' = _notification_cache w.
Proof.
  intros Hp w' whole interval.
  destruct (check_plan_effect env db now plan p w Hp) as (w1 & Hrun & Hw1).
  unfold w', after. rewrite Hrun. split; [reflexivity|].
  unfold plan_ready, plan_due, plan_interval in Hw1. rewrite Hp in Hw1.
  exact Hw1.
Qed.

(** The garden's interval is 3 minutes: its plan of 09:00 is notified
    at 09:00 and at 09:03, and not at 09:02. *)
Lemma planning_check_exact_witness :
  let db := mkDB [] 1 [] [Examples.thesis; Examples.garden]
              [Examples.plan_garden] Examples.no_settings in
  let titles now :=
    title <$> calls (after (check_plan Examples.env_up db now
                              Examples.plan_garden) Examples.w0) in
  project_of db (Some (Planning.project_id Examples.plan_garden))
  = Some Examples.garden
  /\ titles (Examples.at_ 9 0) = ["Scheduled Work"]
  /\ titles (Examples.at_ 9 2) = []
  /\ titles (Examples.at_ 9 3) = ["Planning Reminder"]
  /\ _notification_cache
       (after (check_plan Examples.env_up db (Examples.at_ 9 3)
                 Examples.plan_garden) Examples.w0)
     = <[cache_key 1 "planning" := Examples.at_ 9 3]> ∅.
Proof.
  intros db titles. split; [reflexivity|].
  split; [reflexivity|]. split; [reflexivity|]. split; [reflexivity|].
  destruct (planning_check_exact Examples.env_up db (Examples.at_ 9 3)
              Examples.plan_garden Examples.garden Examples.w0 eq_refl)
    as [_ [_ Hc]].
  exact Hc.
Defined.

End PlanningExact.

(** ** The tick under failing deliveries *)

Section Tick.
Import SessionService NotificationService NotificationWorker.

Lemma filter_filter_andb {A} (f g : A -> bool) (l : list A) :
  List.filter f (List.filter g l) = List.filter (fun x => g x && f x) l.
Proof.
  induction l as [|x l IH]; simpl; [reflexivity|].
  destruct (g x); simpl; [destruct (f x)|]; now rewrite IH.
Qed.

Lemma NoDup_fmap_filter {A B} (f : A -> B) (g : A -> bool) (l : list A) :
  NoDup (f <$> l) -> NoDup (f <$> List.filter g l).
Proof.
  induction l as [|x l IH]; [auto|].
  rewrite fmap_cons. intros [Hx Hnd]%NoDup_cons.
  cbn [List.filter]. destruct (g x); [|auto].
  rewrite fmap_cons. apply NoDup_cons. split; [|auto].
  intros Hin. apply Hx.
  apply list_elem_of_fmap in Hin as (y & -> & Hy).
  apply list_elem_of_fmap. exists y. split; [reflexivity|].
  apply list_elem_of_In. apply list_elem_of_In, List.filter_In in Hy. tauto.
Qed.

(** The plans the tick looks at are the plans in the window. *)
Lemma planning_list_window db now :
  planning_list db now = List.filter (in_window now) (planning db).
Proof.
  unfold planning_list. apply List.filter_ext. intros p. unfold in_window.
  destruct (Z.leb_spec (now - minutes 5) (Planning.scheduled_start p)),
    (Z.leb_spec (Planning.scheduled_start p) now); simpl; symmetry;
    try (apply bool_decide_eq_true; lia); apply bool_decide_eq_false; lia.
Qed.

Lemma sent_recently_cache w w' now (i : Z) (t : string) :
  _notification_cache w' !! cache_key i t
  = _notification_cache w !! cache_key i t ->
  sent_recently w' now i t = sent_recently w now i t.
Proof. unfold sent_recently. now intros ->. Qed.

Lemma planning_keys_differ (i j : Z) :
  i <> j -> cache_key i "planning" <> cache_key j "planning".
Proof.
  intros Hne H.
  apply cache_key_inj in H as [? _]; [contradiction | now left | now left].
Qed.

Lemma session_key_not_planning (i j : Z) :
  cache_key i "session" <> cache_key j "planning".
Proof.
  intros H.
  apply cache_key_inj in H as [_ ?]; [discriminate | now right | now left].
Qed.

Lemma for_each_cons_ok {A} (body : A -> M World unit) (x : A) (l : list A)
    (w w1 : World) :
  body x w = (Ok tt, w1) -> for_each body (x :: l) w = for_each body l w1.
Proof. intros H. simpl. unfold mbind, M_bind, bind. now rewrite H. Qed.

(** The loop over the plans: every plan is reached, the ready ones are
    notified and stamped, and no other key is touched. *)
Lemma planning_loop_effect env db now plans w :
  Forall (fun plan =>
            is_Some (project_of db (Some (Planning.project_id plan)))) plans ->
  NoDup (Planning.id <$> plans) ->
  exists w' sent,
    for_each (check_plan env db now) plans w = (Ok tt, w')
    /\ calls w' = calls w ++ sent
    /\ length sent = length (List.filter (plan_ready db now w) plans)
    /\ (forall plan, plan ∈ plans -> plan_ready db now w plan = true ->
          _notification_cache w' !! cache_key (Planning.id plan) "planning"
          = Some now)
    /\ (forall k,
          (forall plan, plan ∈ plans ->
                        k <> cache_key (Planning.id plan) "planning") ->
          _notification_cache w' !! k = _notification_cache w !! k).
Proof.
  revert w. induction plans as [|plan plans IH]; intros w Hproj Hnd.
  - exists w, []. simpl. rewrite app_nil_r.
    repeat split; auto. intros plan H. inversion H.
  - apply Forall_cons in Hproj as [[p Hp] Hproj].
    rewrite fmap_cons in Hnd. apply NoDup_cons in Hnd as [Hnotin Hnd].
    destruct (check_plan_effect env db now plan p w Hp) as (w1 & Hrun & Hw1).
    destruct (IH w1 Hproj Hnd)
      as (w' & sent & Hloop & Hcalls & Hlen & Hstamp & Hrest).
    assert (Hkey : forall q, q ∈ plans ->
                             cache_key (Planning.id plan) "planning"
                             <> cache_key (Planning.id q) "planning").
    { intros q Hq. apply planning_keys_differ. intros E. apply Hnotin.
      rewrite E. apply list_elem_of_fmap. eauto. }
    assert (Hother : forall k,
              k <> cache_key (Planning.id plan) "planning" ->
              _notification_cache w1 !! k = _notification_cache w !! k).
    { intros k Hk. destruct (plan_ready db now w plan).
      - destruct Hw1 as [_ ->]. now apply lookup_insert_ne.
      - now destruct Hw1 as [_ ->]. }
    assert (Hready : forall q, q ∈ plans ->
                               plan_ready db now w1 q = plan_ready db now w q).
    { intros q Hq. unfold plan_ready. f_equal. f_equal.
      apply sent_recently_cache, Hother. intros E. now apply (Hkey q Hq). }
    assert (Hfilter : List.filter (plan_ready db now w1) plans
                      = List.filter (plan_ready db now w) plans).
    { apply List.filter_ext_in. intros q Hq. apply Hready.
      now apply list_elem_of_In. }
    rewrite (for_each_cons_ok _ _ _ _ _ Hrun), Hloop.
    cbn [List.filter].
    destruct (plan_ready db now w plan) eqn:E.
    + destruct Hw1 as [[n Hn] Hc].
      exists w', (n :: sent). split; [reflexivity|].
      split; [rewrite Hcalls, Hn, <- app_assoc; reflexivity|].
      split; [simpl; now rewrite Hlen, Hfilter|].
      split.
      * intros q Hq Hr. apply elem_of_cons in Hq as [-> | Hq].
        -- rewrite Hrest; [rewrite Hc; apply lookup_insert_eq|].
           intros q Hq. now apply Hkey.
        -- apply Hstamp; [exact Hq|]. now rewrite Hready.
      * intros k Hk. rewrite Hrest.
        -- apply Hother, Hk, elem_of_cons. now left.
        -- intros q Hq. apply Hk, elem_of_cons. now right.
    + exists w', sent. split; [reflexivity|].
      split; [rewrite Hcalls; destruct Hw1 as [-> _]; reflexivity|].
      split; [now rewrite Hlen, Hfilter|].
      split.
      * intros q Hq Hr. apply elem_of_cons in Hq as [-> | Hq].
        -- rewrite E in Hr. discriminate.
        -- apply Hstamp; [exact Hq|]. now rewrite Hready.
      * intros k Hk. rewrite Hrest.
        -- apply Hother, Hk, elem_of_cons. now left.
        -- intros q Hq. apply Hk, elem_of_cons. now right.
Qed.

(** The session check, when the interval of the active session is not
    0: it returns, and notifies and stamps exactly a session that is
    ready. *)
Lemma session_check_effect env db now w :
  (forall s, get_active_session db = Some s -> session_interval db s <> 0) ->
  exists w',
    _check_session_notifications env db now w = (Ok tt, w')
    /\ match get_active_session db with
       | Some s =>
           if session_ready db now w s
           then (exists n, calls w' = calls w ++ [n])
                /\ _notification_cache w'
                   = <[cache_key (Session.id s) "session" := now]>
                       (_notification_cache w)
           else calls w' = calls w
                /\ _notification_cache w' = _notification_cache w
       | None => w' = w
       end.
Proof.
  intros Hint. unfold _check_session_notifications, session_ready, session_due.
  destruct (get_active_session db) as [s|] eqn:Hact; [|now exists w].
  specialize (Hint s eq_refl).
  destruct (Session.notification_disabled s); simpl; [now exists w|].
  destruct (Qlt_bool (minutes_between now (Session.start_time s))
                     (inject_Z (Session.planned_duration s))); simpl;
    [now exists w|].
  set (overtime := (minutes_between now (Session.start_time s)
                    - inject_Z (Session.planned_duration s))%Q).
  destruct (send_session_call env db s overtime) as [body Hone].
  unfold mbind, M_bind, bind.
  destruct (Qlt_bool overtime (inject_Z 1)) eqn:E1; simpl.
  - destruct (notify_unless_recent_spec now (Session.id s) "session" _ _ w Hone)
      as (w1 & -> & Hw1).
    exists w1. split; [reflexivity|].
    destruct (sent_recently w now (Session.id s) "session"); simpl.
    + now rewrite Hw1.
    + split; [eexists|]; apply Hw1.
  - unfold py_mod.
    destruct (Z.eqb_spec (session_interval db s) 0); [contradiction|]. simpl.
    destruct (int_of overtime mod session_interval db s =? 0); simpl;
      [|now exists w].
    destruct (notify_unless_recent_spec now (Session.id s) "session" _ _ w Hone)
      as (w1 & -> & Hw1).
    exists w1. split; [reflexivity|].
    destruct (sent_recently w now (Session.id s) "session"); simpl.
    + now rewrite Hw1.
    + split; [eexists|]; apply Hw1.
Qed.

(** One tick, when every plan has its project and the interval of the
    active session is not 0. *)
Lemma check_notifications_effect env db now w :
  Forall (fun plan =>
            is_Some (project_of db (Some (Planning.project_id plan))))
         (planning db) ->
  NoDup (Planning.id <$> planning db) ->
  (forall s, get_active_session db = Some s -> session_interval db s <> 0) ->
  exists w' sent,
    check_notifications env db now w = (Ok tt, w')
    /\ calls w' = calls w ++ sent
    /\ length sent
       = (length (List.filter (plan_eligible db now w) (planning db))
          + (if session_eligible db now w then 1 else 0))%nat
    /\ (forall plan, plan ∈ planning db -> plan_eligible db now w plan = true ->
          _notification_cache w' !! cache_key (Planning.id plan) "planning"
          = Some now)
    /\ (forall s, get_active_session db = Some s ->
                  session_ready db now w s = true ->
          _notification_cache w' !! cache_key (Session.id s) "session"
          = Some now).
Proof.
  intros Hproj Hnd Hint.
  unfold check_notifications, _check_planning_notifications.
  rewrite planning_list_window.
  destruct (planning_loop_effect env db now
              (List.filter (in_window now) (planning db)) w)
    as (w1 & sent & Hloop & Hcalls & Hlen & Hstamp & Hrest).
  { apply Forall_forall. intros plan Hin.
    rewrite Forall_forall in Hproj. apply Hproj.
    apply list_elem_of_In. apply list_elem_of_In, List.filter_In in Hin. tauto. }
  { now apply NoDup_fmap_filter. }
  rewrite filter_filter_andb in Hlen.
  destruct (session_check_effect env db now w1 Hint) as (w' & Hrun & Hw').
  assert (Hsame : forall s, session_ready db now w1 s = session_ready db now w s).
  { intros s. unfold session_ready. f_equal.
    f_equal. apply sent_recently_cache, Hrest.
    intros plan _. apply session_key_not_planning. }
  assert (Hplans : forall plan, plan ∈ planning db ->
                     plan_eligible db now w plan = true ->
                     _notification_cache w1
                       !! cache_key (Planning.id plan) "planning" = Some now).
  { intros plan Hin Hel. unfold plan_eligible in Hel.
    apply andb_true_iff in Hel as [Hwin Hr].
    apply Hstamp; [|exact Hr].
    apply list_elem_of_In, List.filter_In. split; [|exact Hwin].
    now apply list_elem_of_In. }
  unfold mbind, M_bind, bind. rewrite Hloop, Hrun.
  unfold session_eligible.
  destruct (get_active_session db) as [s|] eqn:Hact.
  - rewrite Hsame in Hw'.
    destruct (session_ready db now w s) eqn:Hr.
    + destruct Hw' as [[n Hn] Hc].
      exists w', (sent ++ [n]). split; [reflexivity|].
      split; [rewrite Hn, Hcalls, <- app_assoc; reflexivity|].
      split; [rewrite length_app, Hlen; reflexivity|].
      split.
      * intros plan Hin Hel. rewrite Hc, lookup_insert_ne.
        -- now apply Hplans.
        -- apply session_key_not_planning.
      * intros s' [= <-] _. rewrite Hc. apply lookup_insert_eq.
    + destruct Hw' as [Hn Hc].
      exists w', sent. split; [reflexivity|].
      split; [now rewrite Hn|].
      split; [rewrite Nat.add_0_r; exact Hlen|].
      split.
      * intros plan Hin Hel. rewrite Hc. now apply Hplans.
      * intros s' [= <-] Hr'. rewrite Hr in Hr'. discriminate.
  - subst w'. exists w1, sent. split; [reflexivity|].
    split; [exact Hcalls|].
    split; [rewrite Nat.add_0_r; exact Hlen|].
    split; [exact Hplans | discriminate].
Qed.

(** C10.  Whatever the outside of the process does to a delivery (the
    config file cannot be written, the daemon cannot be reached),
    [send_notification] records the call and returns to the worker.
    So on a tick whose plans all have their project and whose active
    session has an interval other than 0, the tick returns, and every
    entity that is due is dispatched: one call for each plan in the
    window that is ready and one for the active session when it is
    ready, each of them stamped with the time of the tick; and the loop
    goes on with the ticks that follow from the world the tick left.
    Under any two behaviours of the outside the tick ends the same way,
    with the same calls and the same stamps.  Any tick at all, whether
    it returns or raises, is followed by the next ticks, its exception
    printed; [start] prints its line and runs the loop, never lets an
    exception through, and after any run of ticks the loop goes on with
    the ticks that follow. *)
Theorem dispatch_failure_contained env env' db now ticks ticks' (w : World) :
  Forall (fun plan =>
            is_Some (project_of db (Some (Planning.project_id plan))))
         (planning db) ->
  NoDup (Planning.id <$> planning db) ->
  (forall s, get_active_session db = Some s -> session_interval db s <> 0) ->
  (forall (t m u : string) (icon : option string) (timeout : Z) w0,
     exists b w1,
       send_notification env t m u icon timeout w0 = (Ok b, w1)
       /\ calls w1 = calls w0 ++ [mkNotification t m u])
  /\ (exists w' sent,
        check_notifications env db now w = (Ok tt, w')
        /\ calls w' = calls w ++ sent
        /\ length sent
           = (length (List.filter (plan_eligible db now w) (planning db))
              + (if session_eligible db now w then 1 else 0))%nat
        /\ (forall plan,
              plan ∈ planning db -> plan_eligible db now w plan = true ->
              _notification_cache w'
                !! cache_key (Planning.id plan) "planning" = Some now)
        /\ (forall s,
              get_active_session db = Some s ->
              session_ready db now w s = true ->
              _notification_cache w'
                !! cache_key (Session.id s) "session" = Some now)
        /\ polling_loop env ((db, now) :: ticks) w
           = polling_loop env ticks w')
  /\ sim (check_notifications env db now) (check_notifications env' db now)
  /\ (forall db0 now0 w0,
        polling_loop env ((db0, now0) :: ticks) w0
        = polling_loop env ticks
            (match check_notifications env db0 now0 w0 with
             | (Ok _, w1) => w1
             | (Raise e, w1) =>
                 mkWorld (_notification_cache w1) (calls w1) (wire w1)
                   (stdout w1
                    ++ ["Error in notification worker: " +:+ exn_str e])
             end))
  /\ start env ticks w
     = polling_loop env ticks
         (after (print "Notification worker started") w)
  /\ fst (start env ticks w) = Ok tt
  /\ polling_loop env (ticks ++ ticks') w
     = polling_loop env ticks' (snd (polling_loop env ticks w))
  /\ sim (start env ticks) (start env' ticks).
Proof.
  intros Hproj Hnd Hint.
  split.
  { intros t m u icon timeout w0.
    destruct (send_notification_returns env t m u icon timeout w0)
      as (b & w1 & H & Hc & _). eauto. }
  split.
  { destruct (check_notifications_effect env db now w Hproj Hnd Hint)
      as (w' & sent & Hrun & Hcalls & Hlen & Hplans & Hsession).
    exists w', sent. repeat (split; [assumption|]).
    rewrite polling_loop_turn. now rewrite Hrun. }
  split; [apply sim_check_notifications|].
  split; [intros db0 now0 w0; apply polling_loop_turn|].
  split; [apply start_loop|].
  split; [rewrite start_loop; apply polling_loop_returns|].
  split; [apply polling_loop_app | apply sim_start].
Qed.

(** The busy moment with the daemon down.  At 09:00 the tick makes its
    three calls although every delivery fails, and at 09:03 the next
    tick runs and reminds of the plan of 09:00; nothing reaches the
    socket, and the calls are those of a run with the daemon up.  A
    tick that raises, on a plan without its project, is printed and the
    next tick runs. *)
Lemma dispatch_failure_contained_witness :
  let ticks := [(Busy.db, Examples.at_ 9 3)] in
  let run env :=
    after (start env ((Busy.db, Busy.now) :: ticks)) Examples.w0 in
  let broken :=
    mkDB [] 1 [] [] [Busy.plan_now] Examples.no_settings in
  (Forall (fun plan =>
             is_Some (project_of Busy.db (Some (Planning.project_id plan))))
          (planning Busy.db)
   /\ NoDup (Planning.id <$> planning Busy.db)
   /\ (forall s, get_active_session Busy.db = Some s ->
                 session_interval Busy.db s <> 0))
  /\ (exists w' sent,
        check_notifications Examples.env_down Busy.db Busy.now Examples.w0
        = (Ok tt, w')
        /\ calls w' = sent
        /\ length sent = 3%nat
        /\ polling_loop Examples.env_down ((Busy.db, Busy.now) :: ticks)
             Examples.w0
           = polling_loop Examples.env_down ticks w')
  /\ title <$> calls (run Examples.env_down)
     = ["Scheduled Work"; "Planning Reminder"; "Session Complete: Thesis";
        "Planning Reminder"]
  /\ wire (run Examples.env_down) = []
  /\ stdout (run Examples.env_down)
     = ["Notification worker started";
        "Failed to connect to notification service: Connection refused";
        "Failed to connect to notification service: Connection refused";
        "Failed to connect to notification service: Connection refused";
        "Failed to connect to notification service: Connection refused"]
  /\ calls (run Examples.env_up) = calls (run Examples.env_down)
  /\ _notification_cache (run Examples.env_up)
     = _notification_cache (run Examples.env_down)
  /\ stdout (after (start Examples.env_down
                      [(broken, Busy.now); (Busy.db, Busy.now)])
                   Examples.w0)
     = ["Notification worker started";
        "Error in notification worker: "
        +:+ "'NoneType' object has no attribute 'name'";
        "Failed to connect to notification service: Connection refused";
        "Failed to connect to notification service: Connection refused";
        "Failed to connect to notification service: Connection refused"].
Proof.
  intros ticks run broken.
  assert (H1 : Forall (fun plan =>
                         is_Some (project_of Busy.db
                                    (Some (Planning.project_id plan))))
                      (planning Busy.db))
    by (repeat constructor; eexists; reflexivity).
  assert (H2 : NoDup (Planning.id <$> planning Busy.db)).
  { apply NoDup_cons. split; [|apply NoDup_singleton].
    intros H. apply list_elem_of_singleton in H. discriminate. }
  assert (H3 : forall s, get_active_session Busy.db = Some s ->
                         session_interval Busy.db s <> 0)
    by (intros s [= <-]; discriminate).
  split; [now repeat split|].
  split.
  { destruct (dispatch_failure_contained Examples.env_down Examples.env_up
                Busy.db Busy.now ticks [] Examples.w0 H1 H2 H3)
      as (_ & (w' & sent & Hrun & Hcalls & Hlen & _ & _ & Hloop) & _).
    exists w', sent. split; [exact Hrun|].
    split; [exact Hcalls|]. split; [exact Hlen | exact Hloop]. }
  repeat split; reflexivity.
Defined.

End Tick.
